(** * gold_loan_llm_app3.py: the question-answering pipeline over a DataFrame

    A shallow embedding of [gold_loan_llm_app3.py].  The script loads an
    Excel sheet into [st.session_state.df], asks a language model for one
    Python expression, evaluates it with
    [eval(python_code, {'__builtins__': None}, {'df': ..., 'pd': pd})]
    and renders the value.

    The script leans on libraries.  What it uses of them is modelled as
    follows.
    - pandas: a DataFrame is a row index and an ordered list of labelled,
      typed columns.  Of the DataFrame API the model has column selection
      [df['c']], projection [df[['a','b']]], boolean-mask filtering
      [df[mask]], the property [.empty], the in-place method [.pop(c)],
      elementwise [==] and [!=] of a Series with a scalar, [Series.sum()]
      and label lookup [s[i]].  [pd.read_excel] renames repeated headers,
      so the labels of a sheet it returns are distinct; a DataFrame built
      by an expression can repeat a label.
    - Python's [eval]: expressions are abstract syntax trees (module [ast]):
      nine node types of Python's own [ast], and a leaf [Other] for every
      other node.  Whatever the model does not cover (an [Other] node, any
      other attribute, any other operand) is answered by the interpreter of
      the environment (record [Python]), which may return any value, raise
      anything, rewrite the DataFrame and the namespace, or not come back.
      Turning a string into a tree is the interpreter's [compile], taken
      from the environment, as is the exception it raises for a string it
      refuses.  An evaluation ends in a value, in an [Exception], or in
      what [except Exception] does not catch (type [interrupt]).
    - Text: a [string] is a Python [str] given by its UTF-8 bytes; a [str]
      that has no encoding is among the objects outside the model.  The
      text of a scalar, of a Series and of a DataFrame can be formed, but
      for an [int] of more digits than the interpreter converts; the cells
      of a sheet are never such.
    - httpx and json: the outcome of the POST, [response.json()] and
      [json.loads] are supplied by the environment, with the exceptions
      they raise; the [except] clauses that match them are written out.
    - Streamlit: the calls are recorded in order.  [st.dataframe] raises
      for a DataFrame with a repeated column label; no other call of
      Streamlit fails. *)

From Stdlib Require Import ZArith PrimFloat Lia.
From stdpp Require Import base option strings list gmap.

Set Warnings "-register-all".

Local Open Scope Z_scope.
Local Open Scope string_scope.

(** ** Python objects *)

(** Exceptions that derive from [Exception], by class: what the clause
    [except Exception] catches.  [RequestError] stands for
    [httpx.RequestError] and its subclasses (connection, timeout, protocol
    errors); [HTTPStatusError] is what [response.raise_for_status()] raises
    and, in httpx, derives from [HTTPError] directly, not from
    [RequestError].  [OtherException] is any further class. *)
Inductive exception :=
| RequestError (detail : string)
| HTTPStatusError (status_code : Z)
| JSONDecodeError
| FileNotFoundError
| SyntaxError
| TypeError
| AttributeError
| KeyError
| IndexError
| ValueError
| IndexingError
| RecursionError
| UnicodeError
| OtherException (class : string).

Inductive result (A : Type) :=
| Ok (a : A)
| Raise (e : exception).
Arguments Ok {A} a.
Arguments Raise {A} e.

(** What ends an evaluation without a value and is not an [Exception]: the
    three [BaseException] classes that [except Exception] lets through, an
    operation that does not come back, and [OutsideModel], the answer of the
    interpreter that refuses everything the model does not cover (see
    [trapping]). *)
Inductive interrupt :=
| SystemExit
| KeyboardInterrupt
| GeneratorExit
| NeverReturns
| OutsideModel.

(** How an evaluation ends. *)
Inductive outcome (A : Type) :=
| Returns (a : A)
| Raises (e : exception)
| Escapes (i : interrupt).
Arguments Returns {A} a.
Arguments Raises {A} e.
Arguments Escapes {A} i.

(** What ends a run of the script before its last line. *)
Inductive escaped :=
| Uncaught (e : exception)
| Interrupted (i : interrupt).

(** Python scalars: [None], [bool], [int], [float], [str]. *)
Inductive scalar :=
| SNone
| SBool (b : bool)
| SInt (z : Z)
| SFloat (f : float)
| SStr (s : string).

(** ** pandas: the data model *)

Inductive dtype := int64 | float64 | bool_ | object_ | datetime64.

(** [str(dtype)], as the f-string of line 167 prints it. *)
Definition dtype_str (d : dtype) : string :=
  match d with
  | int64 => "int64"
  | float64 => "float64"
  | bool_ => "bool"
  | object_ => "object"
  | datetime64 => "datetime64[ns]"
  end.

Record Column := mkColumn {
  label : string;
  col_dtype : dtype;
  cells : list scalar }.

Record DataFrame := mkDataFrame {
  index : list Z;
  columns : list Column }.

Record Series := mkSeries {
  s_index : list Z;
  s_dtype : dtype;
  s_cells : list scalar }.

(** The invariant of a frame as [pd.read_excel] builds it: distinct row
    labels, distinct column labels (duplicate headers are renamed on load),
    and one cell per row in every column. *)
Definition valid_frame (f : DataFrame) : Prop :=
  NoDup (index f) ∧ NoDup (label <$> columns f) ∧
  Forall (λ c, length (cells c) = length (index f)) (columns f).

(** [DataFrame.empty]: true when either axis has length 0. *)
Definition empty (f : DataFrame) : bool :=
  (length (index f) =? 0)%nat || (length (columns f) =? 0)%nat.

(** [len(frame)]: the number of rows. *)
Definition len (f : DataFrame) : nat := length (index f).

(** [DataFrame.head()]: the first five rows. *)
Definition head (f : DataFrame) : DataFrame :=
  {| index := take 5 (index f);
     columns := (λ c, mkColumn (label c) (col_dtype c) (take 5 (cells c))) <$> columns f |}.

Definition series_of (f : DataFrame) (c : Column) : Series :=
  {| s_index := index f; s_dtype := col_dtype c; s_cells := cells c |}.

Definition labelled (k : string) (f : DataFrame) : list Column :=
  filter (λ c, label c = k) (columns f).

(** A result of [frame[key]] for a column label: a Series, or a frame when
    several columns carry the label. *)
Inductive selection :=
| SelSeries (s : Series)
| SelFrame (f : DataFrame).

(** [frame[k]] for a string [k]. *)
Definition select_column (f : DataFrame) (k : string) : result selection :=
  match labelled k f with
  | [] => Raise KeyError
  | [c] => Ok (SelSeries (series_of f c))
  | cs => Ok (SelFrame {| index := index f; columns := cs |})
  end.

(** [frame[[k1, ..., kn]]]: the columns in the order of the keys. *)
Fixpoint project_columns (f : DataFrame) (ks : list string) : result (list Column) :=
  match ks with
  | [] => Ok []
  | k :: ks' =>
      match labelled k f with
      | [] => Raise KeyError
      | cs =>
          match project_columns f ks' with
          | Ok rest => Ok (cs ++ rest)%list
          | Raise e => Raise e
          end
      end
  end.

Definition project (f : DataFrame) (ks : list string) : result DataFrame :=
  match project_columns f ks with
  | Ok cs => Ok {| index := index f; columns := cs |}
  | Raise e => Raise e
  end.

(** Keep the positions where the mask is true. *)
Fixpoint keep {A} (mask : list bool) (l : list A) : list A :=
  match mask, l with
  | b :: mask', x :: l' => if b then x :: keep mask' l' else keep mask' l'
  | _, _ => []
  end.

Definition filter_rows (f : DataFrame) (mask : list bool) : DataFrame :=
  {| index := keep mask (index f);
     columns := (λ c, mkColumn (label c) (col_dtype c) (keep mask (cells c))) <$> columns f |}.

Definition cell_true (c : scalar) : bool :=
  match c with SBool b => b | _ => false end.

(** The value a boolean Series holds at row label [i]. *)
Fixpoint at_label (idx : list Z) (vals : list scalar) (i : Z) : option scalar :=
  match idx, vals with
  | j :: idx', v :: vals' => if (j =? i)%Z then Some v else at_label idx' vals' i
  | _, _ => None
  end.

Fixpoint align (m : Series) (idx : list Z) : result (list bool) :=
  match idx with
  | [] => Ok []
  | i :: idx' =>
      match at_label (s_index m) (s_cells m) i with
      | None => Raise IndexingError
      | Some v =>
          match align m idx' with
          | Ok bs => Ok (cell_true v :: bs)
          | Raise e => Raise e
          end
      end
  end.

(** [frame[mask]] for a boolean Series: used by position when its index
    equals the frame's, re-indexed by row label otherwise. *)
Definition mask_of (f : DataFrame) (m : Series) : result (list bool) :=
  if decide (s_index m = index f) then Ok (cell_true <$> s_cells m)
  else align m (index f).

(** A cell that pandas treats as missing: [None] or a NaN. *)
Definition missing (c : scalar) : bool :=
  match c with
  | SNone => true
  | SFloat f => negb (PrimFloat.eqb f f)
  | _ => false
  end.

Definition Z_of_bool (b : bool) : Z := if b then 1 else 0.

(** Python's [a == b] on scalars.  An [int] or [bool] against a [float] is
    left out (the result is [None]). *)
Definition scalar_eq (a b : scalar) : option bool :=
  match a, b with
  | SNone, SNone => Some true
  | SBool x, SBool y => Some (Z_of_bool x =? Z_of_bool y)%Z
  | SBool x, SInt y => Some (Z_of_bool x =? y)%Z
  | SInt x, SBool y => Some (x =? Z_of_bool y)%Z
  | SInt x, SInt y => Some (x =? y)%Z
  | SFloat x, SFloat y => Some (PrimFloat.eqb x y)
  | SStr x, SStr y => Some (bool_decide (x = y))
  | SFloat _, (SBool _ | SInt _) | (SBool _ | SInt _), SFloat _ => None
  | _, _ => Some false
  end.

(** One cell of [series == v]: a missing cell compares unequal. *)
Definition cell_eq (v c : scalar) : option bool :=
  if missing c then Some false else scalar_eq c v.

Fixpoint cells_eq (v : scalar) (cs : list scalar) : option (list bool) :=
  match cs with
  | [] => Some []
  | c :: cs' =>
      match cell_eq v c, cells_eq v cs' with
      | Some b, Some bs => Some (b :: bs)
      | _, _ => None
      end
  end.

(** A signed 64-bit integer, wrapped as numpy does on overflow. *)
Definition wrap64 (z : Z) : Z := (z + 2 ^ 63) mod 2 ^ 64 - 2 ^ 63.

Fixpoint int_cells (cs : list scalar) : option (list Z) :=
  match cs with
  | [] => Some []
  | SInt z :: cs' => cons z <$> int_cells cs'
  | _ => None
  end.

(** [Series.sum()] for the dtypes [int64] and [bool]; [None] for the
    others, which the model leaves to the interpreter. *)
Definition series_sum (s : Series) : option scalar :=
  match s_dtype s with
  | int64 =>
      match int_cells (s_cells s) with
      | Some zs => Some (SInt (foldl (λ acc z, wrap64 (acc + z)) 0 zs))
      | None => None
      end
  | bool_ => Some (SInt (Z.of_nat (length (filter (λ c, cell_true c = true) (s_cells s)))))
  | _ => None
  end.

(** Remove every column labelled [k]: the [del self[k]] of [DataFrame.pop]. *)
Definition drop_column (k : string) (f : DataFrame) : DataFrame :=
  {| index := index f; columns := filter (λ c, label c ≠ k) (columns f) |}.


(** ** Python expressions *)

(** The expression nodes of Python's [ast] that the model evaluates, and
    [Other] for a node of any other type (a lambda, a comprehension, an
    assignment expression, an arithmetic operation, a slice, a tuple, ...)
    with all it contains.  [Constant] holds [None], a [bool], an [int], a
    [float] or a [str]; [Call] has positional arguments only, none of them
    starred, and so has [List]; [Compare] has one comparator, [==] or
    [!=]; [BoolOp] takes two operands ([a or b or c] nests to the right).
    A constant, call, display or comparison of another form is an
    [Other]. *)
Module ast.
Inductive boolop := And | Or.
Inductive cmpop := Eq | NotEq.
Inductive expr :=
| Constant (value : scalar)
| Name (id : string)
| Attribute (value : expr) (attr : string)
| Subscript (value : expr) (slice : expr)
| Call (func : expr) (args : list expr)
| Compare (left : expr) (op : cmpop) (right : expr)
| BoolOp (op : boolop) (left right : expr)
| IfExp (test body orelse : expr)
| List (elts : list expr)
| Other (n : nat).
End ast.
Import ast (expr).

(** Run-time values.  [VSessionDf] is the one DataFrame object that
    [st.session_state.df] and the binding [df] of [local_vars] both point to;
    its contents live in the state.  [VFrame] is a DataFrame built during
    evaluation, which nothing else refers to.  [VOther] is any object that is
    none of the others. *)
Inductive value :=
| VScalar (s : scalar)
| VList (elts : list value)
| VSeries (s : Series)
| VFrame (f : DataFrame)
| VSessionDf
| VPandas
| VBoundMethod (self : value) (name : string)
| VOther (n : nat).

(** ** Evaluation: state, exceptions and the interpreter

    What an evaluation can read and write: the contents of the session's
    DataFrame, the namespace [eval] was given as its locals, and everything
    else the interpreter holds (clock, random state, other objects), which
    the model keeps as one opaque number. *)
Record State := mkState {
  frame : DataFrame;
  namespace : gmap string value;
  ambient : nat }.

(** A computation runs on the state and ends in a value, an exception or an
    interrupt; what it wrote before stays written. *)
Definition M (A : Type) : Type := State → outcome A * State.

Definition ret {A} (a : A) : M A := λ s, (Returns a, s).
Definition raise {A} (e : exception) : M A := λ s, (Raises e, s).
Definition escape {A} (i : interrupt) : M A := λ s, (Escapes i, s).
Definition bind {A B} (m : M A) (k : A → M B) : M B :=
  λ s, match m s with
       | (Returns a, s') => k a s'
       | (Raises e, s') => (Raises e, s')
       | (Escapes i, s') => (Escapes i, s')
       end.
Definition get_frame : M DataFrame := λ s, (Returns (frame s), s).
Definition put_frame (f : DataFrame) : M unit :=
  λ s, (Returns tt, {| frame := f; namespace := namespace s; ambient := ambient s |}).
Definition lift {A} (r : result A) : M A :=
  match r with
  | Ok a => ret a
  | Raise e => raise e
  end.

Notation "x <- m ;; k" := (bind m (λ x, k))
  (at level 100, m at next level, right associativity).

(** The interpreter: the facts about it that the model uses, and its answer
    wherever the model has none.
    - [debug]: the value of [__debug__] ([False] under [python -O]).
    - [int_max_str_digits]: the longest decimal text of an [int] that
      [str] produces before it raises (4300 by default since Python 3.11);
      0 is no limit.
    - [other_node]: the evaluation of an [Other] node.
    - [other_builtin]: a name looked up in builtins that are not [None].
    - [other_getattr], [other_getitem], [other_call], [other_compare],
      [other_truth]: [o.a], [o[k]], [f(args)], [a == b] and [bool(v)] on
      operands the model does not cover.
    - [other_format]: the text of an object the model does not cover, as an
      f-string asks for it. *)
Record Python := mkPython {
  debug : bool;
  int_max_str_digits : nat;
  other_node : nat → M value;
  other_builtin : string → M value;
  other_getattr : value → string → M value;
  other_getitem : value → value → M value;
  other_call : value → list value → M value;
  other_compare : ast.cmpop → value → value → M value;
  other_truth : value → M bool;
  other_format : value → outcome unit }.

(** The interpreter that refuses whatever the model does not cover: a run
    that never meets [OutsideModel] under it has used the operations of the
    model only. *)
Definition modelled_only (d : bool) (n : nat) : Python :=
  {| debug := d;
     int_max_str_digits := n;
     other_node := λ _, escape OutsideModel;
     other_builtin := λ _, escape OutsideModel;
     other_getattr := λ _ _, escape OutsideModel;
     other_getitem := λ _ _, escape OutsideModel;
     other_call := λ _ _, escape OutsideModel;
     other_compare := λ _ _ _, escape OutsideModel;
     other_truth := λ _, escape OutsideModel;
     other_format := λ _, Escapes OutsideModel |}.

Definition trapping (py : Python) : Python :=
  modelled_only (debug py) (int_max_str_digits py).

Definition of_selection (s : selection) : value :=
  match s with
  | SelSeries s => VSeries s
  | SelFrame f => VFrame f
  end.

(** [bool(v)]: a Series or DataFrame has no truth value. *)
Definition truth (py : Python) (v : value) : M bool :=
  match v with
  | VScalar SNone => ret false
  | VScalar (SBool b) => ret b
  | VScalar (SInt z) => ret (negb (z =? 0)%Z)
  | VScalar (SFloat f) => ret (negb (PrimFloat.eqb f 0%float))
  | VScalar (SStr s) => ret (negb (bool_decide (s = "")))
  | VList l => ret (negb (bool_decide (l = [])))
  | VSeries _ | VFrame _ | VSessionDf => raise ValueError
  | VPandas | VBoundMethod _ _ => ret true
  | VOther _ => other_truth py v
  end.

(** Keys of a list subscript. *)
Fixpoint str_keys (l : list value) : option (list string) :=
  match l with
  | [] => Some []
  | VScalar (SStr s) :: l' => cons s <$> str_keys l'
  | _ => None
  end.

Fixpoint bool_keys (l : list value) : option (list bool) :=
  match l with
  | [] => Some []
  | VScalar (SBool b) :: l' => cons b <$> bool_keys l'
  | _ => None
  end.

(** [frame[key]] for the keys of the model: a column label, a list of
    column labels, a list of booleans, a boolean Series.  [None]: another
    key. *)
Definition frame_getitem (f : DataFrame) (key : value) : option (result value) :=
  match key with
  | VScalar (SStr k) =>
      Some match select_column f k with
           | Ok s => Ok (of_selection s)
           | Raise e => Raise e
           end
  | VList [] => Some (Ok (VFrame {| index := index f; columns := [] |}))
  | VList l =>
      match bool_keys l, str_keys l with
      | Some mask, _ =>
          Some (if (length mask =? len f)%nat then Ok (VFrame (filter_rows f mask))
                else Raise ValueError)
      | None, Some ks =>
          Some match project f ks with
               | Ok f' => Ok (VFrame f')
               | Raise e => Raise e
               end
      | None, None => None
      end
  | VSeries m =>
      match s_dtype m with
      | bool_ =>
          Some match mask_of f m with
               | Ok mask => Ok (VFrame (filter_rows f mask))
               | Raise e => Raise e
               end
      | _ => None
      end
  | _ => None
  end.

(** [l[i]] on a Python list: negative indices count from the end. *)
Definition list_getitem (l : list value) (i : Z) : result value :=
  let n := Z.of_nat (length l) in
  let j := if (i <? 0)%Z then (i + n)%Z else i in
  if (j <? 0)%Z then Raise IndexError
  else match l !! Z.to_nat j with
       | Some v => Ok v
       | None => Raise IndexError
       end.

(** [obj[key]]. *)
Definition getitem (py : Python) (obj key : value) : M value :=
  match obj with
  | VSessionDf =>
      f <- get_frame;;
      match frame_getitem f key with
      | Some r => lift r
      | None => other_getitem py obj key
      end
  | VFrame f =>
      match frame_getitem f key with
      | Some r => lift r
      | None => other_getitem py obj key
      end
  | VSeries s =>
      match key with
      | VScalar (SInt i) =>
          match at_label (s_index s) (s_cells s) i with
          | Some c => ret (VScalar c)
          | None => raise KeyError
          end
      | _ => other_getitem py obj key
      end
  | VList l =>
      match key with
      | VScalar (SInt i) => lift (list_getitem l i)
      | VScalar (SBool b) => lift (list_getitem l (Z_of_bool b))
      | VScalar _ => raise TypeError
      | _ => other_getitem py obj key
      end
  | VScalar (SStr _) => other_getitem py obj key
  | VScalar _ | VPandas | VBoundMethod _ _ => raise TypeError
  | VOther _ => other_getitem py obj key
  end.

(** [obj.attr]. *)
Definition getattr (py : Python) (obj : value) (attr : string) : M value :=
  match obj with
  | VSessionDf =>
      if bool_decide (attr = "empty") then f <- get_frame;; ret (VScalar (SBool (empty f)))
      else if bool_decide (attr = "pop") then ret (VBoundMethod obj "pop")
      else other_getattr py obj attr
  | VFrame f =>
      if bool_decide (attr = "empty") then ret (VScalar (SBool (empty f)))
      else if bool_decide (attr = "pop") then ret (VBoundMethod obj "pop")
      else other_getattr py obj attr
  | VSeries s =>
      if bool_decide (attr = "empty") then ret (VScalar (SBool (length (s_index s) =? 0)%nat))
      else if bool_decide (attr = "sum") then ret (VBoundMethod obj "sum")
      else other_getattr py obj attr
  | _ => other_getattr py obj attr
  end.

(** [DataFrame.pop(item)] for a column label: [result = self[item]; del
    self[item]; return result].  On the session's DataFrame the deletion is
    written to the state. *)
Definition pop (py : Python) (self : value) (item : value) : M value :=
  match self, item with
  | VSessionDf, VScalar (SStr k) =>
      f <- get_frame;;
      s <- lift (select_column f k);;
      _ <- put_frame (drop_column k f);;
      ret (of_selection s)
  | VFrame f, VScalar (SStr k) =>
      s <- lift (select_column f k);;
      ret (of_selection s)
  | _, _ => other_call py (VBoundMethod self "pop") [item]
  end.

(** [f(args)]: of the objects of the model only bound methods are
    callable. *)
Definition call (py : Python) (f : value) (args : list value) : M value :=
  match f with
  | VBoundMethod self name =>
      if bool_decide (name = "pop") then
        match self, args with
        | (VSessionDf | VFrame _), [item] => pop py self item
        | (VSessionDf | VFrame _), _ => raise TypeError
        | _, _ => other_call py f args
        end
      else if bool_decide (name = "sum") then
        match self, args with
        | VSeries s, [] =>
            match series_sum s with
            | Some z => ret (VScalar z)
            | None => other_call py f args
            end
        | _, _ => other_call py f args
        end
      else other_call py f args
  | VOther _ => other_call py f args
  | _ => raise TypeError
  end.

(** [a == b] and [a != b]. *)
Definition compare (py : Python) (op : ast.cmpop) (a b : value) : M value :=
  let flip (x : bool) := match op with ast.Eq => x | ast.NotEq => negb x end in
  match a, b with
  | VScalar x, VScalar y =>
      match scalar_eq x y with
      | Some r => ret (VScalar (SBool (flip r)))
      | None => other_compare py op a b
      end
  | VSeries s, VScalar v | VScalar v, VSeries s =>
      match cells_eq v (s_cells s) with
      | Some bs => ret (VSeries {| s_index := s_index s; s_dtype := bool_;
                                   s_cells := SBool ∘ flip <$> bs |})
      | None => other_compare py op a b
      end
  | _, _ => other_compare py op a b
  end.

(** Name resolution of [eval(source, globals, locals)].  [__debug__] is a
    constant of the compiler.  Any other name is looked up in the locals,
    then the globals, then the builtins, which are whatever
    [globals['__builtins__']] holds; looking a name up in builtins that are
    [None] raises (a [TypeError]: [None] is not subscriptable). *)
Definition load_name (py : Python) (globals : gmap string value) (id : string) : M value :=
  if bool_decide (id = "__debug__") then ret (VScalar (SBool (debug py))) else
  λ s, match namespace s !! id with
       | Some v => (Returns v, s)
       | None =>
           match globals !! id with
           | Some v => (Returns v, s)
           | None =>
               match globals !! "__builtins__" with
               | Some (VScalar SNone) => (Raises TypeError, s)
               | _ => other_builtin py id s
               end
           end
       end.

(** The elements of an argument list or a list display, left to right. *)
Section eval_list.
Variable ev : expr → M value.

Fixpoint eval_list (l : list expr) : M (list value) :=
  match l with
  | [] => ret []
  | a :: l' => v <- ev a;; vs <- eval_list l';; ret (v :: vs)
  end.
End eval_list.

Section eval.
Variable py : Python.
Variable globals : gmap string value.

Fixpoint eval_expr (e : expr) : M value :=
  match e with
  | ast.Constant c => ret (VScalar c)
  | ast.Name id => load_name py globals id
  | ast.Attribute v attr => o <- eval_expr v;; getattr py o attr
  | ast.Subscript v s => o <- eval_expr v;; k <- eval_expr s;; getitem py o k
  | ast.Call f args =>
      fv <- eval_expr f;;
      avs <- eval_list eval_expr args;;
      call py fv avs
  | ast.Compare l op r => a <- eval_expr l;; b <- eval_expr r;; compare py op a b
  | ast.BoolOp op l r =>
      a <- eval_expr l;;
      t <- truth py a;;
      match op with
      | ast.Or => if t then ret a else eval_expr r
      | ast.And => if t then eval_expr r else ret a
      end
  | ast.IfExp test body orelse =>
      c <- eval_expr test;;
      t <- truth py c;;
      if t then eval_expr body else eval_expr orelse
  | ast.List elts =>
      vs <- eval_list eval_expr elts;;
      ret (VList vs)
  | ast.Other n => other_node py n
  end.
End eval.

(** ** JSON values, as the Python objects [json] builds *)

Inductive json :=
| JNull
| JBool (b : bool)
| JInt (z : Z)
| JFloat (f : float)
| JStr (s : string)
| JArr (items : list json)
| JObj (fields : list (string * json)).

(** [bool(j)], the test of an [if] and of [and]. *)
Definition truthy (j : json) : bool :=
  match j with
  | JNull => false
  | JBool b => b
  | JInt z => negb (z =? 0)%Z
  | JFloat f => negb (PrimFloat.eqb f 0%float)
  | JStr s => negb (bool_decide (s = ""))
  | JArr l => negb (bool_decide (l = []))
  | JObj l => negb (bool_decide (l = []))
  end.

Fixpoint dict_lookup (fields : list (string * json)) (k : string) : option json :=
  match fields with
  | [] => None
  | (k', v) :: fields' => if bool_decide (k' = k) then Some v else dict_lookup fields' k
  end.

#[local] Instance result_ret : MRet result := @Ok.
#[local] Instance result_bind : MBind result :=
  λ A B k m, match m with Ok a => k a | Raise e => Raise e end.

(** [o.get(k)]: only a dict has the method. *)
Definition py_get (o : json) (k : string) : result json :=
  match o with
  | JObj fields => Ok (default JNull (dict_lookup fields k))
  | _ => Raise AttributeError
  end.

(** [o[k]] for a string key. *)
Definition py_getitem_key (o : json) (k : string) : result json :=
  match o with
  | JObj fields =>
      match dict_lookup fields k with
      | Some v => Ok v
      | None => Raise KeyError
      end
  | _ => Raise TypeError
  end.

(** [o[0]].  On a string the result is its first character (here its first
    byte); nothing below depends on which character it is. *)
Definition py_getitem_0 (o : json) : result json :=
  match o with
  | JArr (x :: _) => Ok x
  | JArr [] => Raise IndexError
  | JObj _ => Raise KeyError
  | JStr (String c _) => Ok (JStr (String c ""))
  | JStr "" => Raise IndexError
  | _ => Raise TypeError
  end.

(** ** The collaborators of one script run *)

Record Response := mkResponse {
  status_code : Z;
  json_body : option json }.

(** What the run receives from outside.
    - [read_excel]: the outcome of [pd.read_excel(EXCEL_FILE_PATH)].  pandas
      renames the repeated headers of a sheet ([a], [a.1], ...), so the
      labels of a DataFrame it returns are distinct: [read_excel_labels].
    - [text_input], [button]: the widget states.
    - [post]: the outcome of [client.post].  [json_body] is
      [response.json()], or [None] when that call raises, and then
      [body_error] is what it raises ([JSONDecodeError] for a body that is
      not JSON, a [UnicodeError] for one that is not text).
    - [json_loads]: [json.loads] on a string, [None] when it raises, and
      then [loads_error] is what it raises ([JSONDecodeError], or
      [RecursionError] for a text nested too deeply).
    - [compile]: the expression a source text compiles to, [None] when
      [eval] raises before it evaluates anything, and then [compile_error]
      is what it raises ([SyntaxError], or a [ValueError] for a text with a
      null character, a [UnicodeError] for one that does not encode).
    - [python]: the interpreter, and [ambient_state], everything it holds
      besides the session's DataFrame when the run starts.
    - [dataframe_error]: what [st.dataframe] raises for a DataFrame in
      which two columns carry the same label. *)
Record Env := mkEnv {
  read_excel : result DataFrame;
  text_input : string;
  button : bool;
  post : result Response;
  body_error : Response → exception;
  json_loads : string → option json;
  loads_error : string → exception;
  compile : string → option expr;
  compile_error : string → exception;
  python : Python;
  ambient_state : nat;
  dataframe_error : exception;
  read_excel_labels : ∀ df, read_excel = Ok df → NoDup (label <$> columns df) }.

(** The request: [llm_prompt] is a fixed instruction text around these two
    interpolated fields. *)
Record Prompt := mkPrompt {
  schema : string;
  question : string }.

(** An f-string: literal text and formatted fields. *)
Inductive piece :=
| Lit (s : string)
| FmtStr (s : string)
| FmtNat (n : nat)
| FmtExc (e : exception)
| FmtVal (v : value)
| FmtJson (j : json).

(** The calls the script makes, in order. *)
Inductive event :=
| st_success (body : list piece)
| st_error (body : list piece)
| st_warning (body : list piece)
| st_info (body : list piece)
| st_write (body : list piece)
| st_subheader (body : list piece)
| st_code (body : list piece)
| st_dataframe (data : DataFrame)
| st_text_input
| st_button
| st_spinner
| client_post (prompt : Prompt)
| eval_call (source : json).

Definition EXCEL_FILE_PATH : string := "GoldLoan.xlsx.xlsx".

(** ** call_gemini_api (lines 13-72) *)

(** [response.raise_for_status()]: raises unless the status is 2xx. *)
Definition raise_for_status (r : Response) : result unit :=
  if (200 <=? status_code r)%Z && (status_code r <? 300)%Z then Ok tt
  else Raise (HTTPStatusError (status_code r)).

(** [response.json()]. *)
Definition response_json (env : Env) (r : Response) : result json :=
  match json_body r with
  | Some j => Ok j
  | None => Raise (body_error env r)
  end.

(** [json.loads(x)]: [x] has to be a string. *)
Definition loads (env : Env) (x : json) : result json :=
  match x with
  | JStr s =>
      match json_loads env s with
      | Some j => Ok j
      | None => Raise (loads_error env s)
      end
  | _ => Raise TypeError
  end.

Definition no_structure : list event * json :=
  ([st_error [Lit "LLM did not return a valid structured response. Please try again."]], JNull).

(** Lines 55-62: the guarded extraction of the expression. *)
Definition extract (env : Env) : json → result (list event * json) := λ result,
  candidates ← py_get result "candidates";
  if negb (truthy candidates) then Ok no_structure else
  first ← py_getitem_key result "candidates" ≫= py_getitem_0;
  content ← py_get first "content";
  if negb (truthy content) then Ok no_structure else
  content' ← py_getitem_key first "content";
  parts ← py_get content' "parts";
  if negb (truthy parts) then Ok no_structure else
  parts' ← py_getitem_key content' "parts";
  json_response_str ← py_getitem_0 parts' ≫= λ p, py_getitem_key p "text";
  parsed_json ← loads env json_response_str;
  python_code ← py_get parsed_json "python_code";
  Ok ([], python_code).

(** Lines 44-59: the body of the [try]. *)
Definition request (env : Env) : result (list event * json) :=
  response ← post env;
  _ ← raise_for_status response;
  result ← response_json env response;
  extract env result.

(** The whole function: the POST, then the [except] clauses in order.  Of
    the exceptions of the model only [RequestError] is an
    [httpx.RequestError] and only [JSONDecodeError] a
    [json.JSONDecodeError]. *)
Definition call_gemini_api (env : Env) (prompt_text : Prompt) : list event * json :=
  let '(shown, returned) :=
    match request env with
    | Ok r => r
    | Raise (RequestError d) =>
        ([st_error [Lit "Error communicating with the Gemini API. Please check your internet connection or API key. Details: ";
                    FmtExc (RequestError d)]], JNull)
    | Raise JSONDecodeError =>
        ([st_error [Lit "Failed to parse JSON response from LLM. The LLM might have returned malformed JSON."]], JNull)
    | Raise e =>
        ([st_error [Lit "An unexpected error occurred during API call: "; FmtExc e]], JNull)
    end in
  (client_post prompt_text :: shown, returned).

(** ** The schema description (lines 166-167) *)

(** [sep.join(l)]. *)
Fixpoint join (sep : string) (l : list string) : string :=
  match l with
  | [] => ""
  | [s] => s
  | s :: l' => s ++ sep ++ join sep l'
  end.

(** One entry, [f"'{col}' ({df[col].dtype})"]: when several columns carry the
    label, [df[col]] is a DataFrame, which has no [dtype]. *)
Definition column_info (df : DataFrame) (col : string) : result string :=
  match select_column df col with
  | Ok (SelSeries s) => Ok ("'" ++ col ++ "' (" ++ dtype_str (s_dtype s) ++ ")")
  | Ok (SelFrame _) => Raise AttributeError
  | Raise e => Raise e
  end.

Fixpoint column_infos (df : DataFrame) (cols : list string) : result (list string) :=
  match cols with
  | [] => Ok []
  | col :: cols' =>
      s ← column_info df col;
      rest ← column_infos df cols';
      Ok (s :: rest)
  end.

Definition df_columns_info (df : DataFrame) : result string :=
  entries ← column_infos df (label <$> columns df);
  Ok (join ", " entries).

(** ** Evaluating and rendering (lines 206-231) *)

(** [eval(source, globals, locals)]: [source] has to be a string that
    compiles to an expression; the locals are the namespace of the state. *)
Definition py_eval (env : Env) (source : json) (globals : gmap string value) : M value :=
  match source with
  | JStr s =>
      match compile env s with
      | Some e => eval_expr (python env) globals e
      | None => raise (compile_error env s)
      end
  | _ => raise TypeError
  end.

(** [isinstance(v, pd.DataFrame)], with the frame. *)
Definition as_frame (v : value) (σ : DataFrame) : option DataFrame :=
  match v with
  | VFrame f => Some f
  | VSessionDf => Some σ
  | _ => None
  end.

Definition is_None (v : value) : bool :=
  match v with VScalar SNone => true | _ => false end.

(** [st.dataframe(f)]. *)
Definition show_dataframe (env : Env) (f : DataFrame) : result unit :=
  if bool_decide (NoDup (label <$> columns f)) then Ok tt
  else Raise (dataframe_error env).

(** The number of decimal digits of an [int]. *)
Definition digits (z : Z) : nat :=
  match z with
  | Z0 => 1
  | Zpos p | Zneg p => Decimal.nb_digits (Pos.to_uint p)
  end.

(** [str(z)] is refused for an [int] of more digits than the limit. *)
Definition fits (py : Python) (z : Z) : bool :=
  (int_max_str_digits py =? 0)%nat || (digits z <=? int_max_str_digits py)%nat.

(** The text of a value, as the f-string of line 221 asks for it: the text
    of a list holds the text of its elements. *)
Fixpoint format_value (py : Python) (v : value) : outcome unit :=
  match v with
  | VScalar (SInt z) => if fits py z then Returns tt else Raises ValueError
  | VList l =>
      (fix all (l : list value) : outcome unit :=
         match l with
         | [] => Returns tt
         | x :: l' =>
             match format_value py x with
             | Returns _ => all l'
             | o => o
             end
         end) l
  | VOther _ => other_format py v
  | _ => Returns tt
  end.

Definition render_table (f : DataFrame) : list event :=
  [st_subheader [Lit "Here is your extracted data:"];
   st_dataframe f;
   st_success [FmtNat (len f); Lit " rows matched your query."]].

Definition render_no_match : list event :=
  [st_info [Lit "No data matched your query."]].

Definition render_answer (v : value) : list event :=
  [st_subheader [Lit "Here is your answer:"];
   st_success [Lit "The result is: "; FmtVal v]].

Definition render_nothing : list event :=
  [st_info [Lit "The query was processed, but no specific data was returned. Please try rephrasing your question."]].

(** Lines 212-224: what is shown, and how the block ends.  The subheader is
    on the page before [st.dataframe] or the f-string can raise. *)
Definition render (env : Env) (exec_result : value) (σ : DataFrame) : list event * outcome unit :=
  match as_frame exec_result σ with
  | Some f =>
      if negb (empty f) then
        match show_dataframe env f with
        | Ok _ => (render_table f, Returns tt)
        | Raise e => ([st_subheader [Lit "Here is your extracted data:"]], Raises e)
        end
      else (render_no_match, Returns tt)
  | None =>
      if negb (is_None exec_result) then
        match format_value (python env) exec_result with
        | Returns _ => (render_answer exec_result, Returns tt)
        | o => ([st_subheader [Lit "Here is your answer:"]], o)
        end
      else (render_nothing, Returns tt)
  end.

(** Lines 226-229. *)
Definition render_error (e : exception) (python_code : json) : list event :=
  [st_error [Lit "An error occurred while executing the generated code. This might be due to a complex query or an issue with the data. Please try rephrasing your question. Error: ";
             FmtExc e];
   st_code [Lit "Generated code (for debugging): "; FmtJson python_code]].

Definition no_query : list event :=
  [st_warning [Lit "Could not generate a valid Python query from your question. Please try rephrasing."]].

Definition the_globals : gmap string value := {[ "__builtins__" := VScalar SNone ]}.
Definition local_vars : gmap string value := {[ "df" := VSessionDf; "pd" := VPandas ]}.

(** The state in which a run of the script evaluates: the session's
    DataFrame, a fresh [local_vars] (line 209), and what the interpreter
    holds. *)
Definition start (σ : DataFrame) (w : nat) : State :=
  {| frame := σ; namespace := local_vars; ambient := w |}.

(** The state in which the next run of the script evaluates. *)
Definition next_run (s : State) : State := start (frame s) (ambient s).

(** Lines 207-229: the [try] around [eval] and the rendering, with its
    [except Exception].  An interrupt is not an [Exception]: it passes
    through the handler. *)
Definition evaluate (env : Env) (python_code : json) (s : State) :
    list event * State * option escaped :=
  match py_eval env python_code the_globals s with
  | (Returns exec_result, s') =>
      match render env exec_result (frame s') with
      | (shown, Returns _) => (eval_call python_code :: shown, s', None)
      | (shown, Raises e) =>
          (eval_call python_code :: shown ++ render_error e python_code, s', None)%list
      | (shown, Escapes i) => (eval_call python_code :: shown, s', Some (Interrupted i))
      end
  | (Raises e, s') => (eval_call python_code :: render_error e python_code, s', None)
  | (Escapes i, s') => ([eval_call python_code], s', Some (Interrupted i))
  end.

(** Lines 206-231.  The DataFrame is the object of the session, which
    [local_vars] binds to [df]: what the evaluation writes to it stays. *)
Definition answer (env : Env) (python_code : json) (σ : DataFrame) :
    list event * DataFrame * option escaped :=
  if truthy python_code then
    let '(shown, s', esc) := evaluate env python_code (start σ (ambient_state env)) in
    (shown, frame s', esc)
  else (no_query, σ, None).

(** ** The script (lines 132-233) *)

(** The outcome of a run: what was called, the session state left behind,
    and what ended the run, if something escaped. *)
Record Run := mkRun {
  trace : list event;
  session_state : gmap string (option DataFrame);
  uncaught : option escaped }.

(** Lines 133-134. *)
Definition init_session (ss : gmap string (option DataFrame)) : gmap string (option DataFrame) :=
  match ss !! "df" with
  | None => <["df" := None]> ss
  | Some _ => ss
  end.

(** Lines 144-149: the two handlers of the load. *)
Definition load_failed (e : exception) : list event :=
  match e with
  | FileNotFoundError =>
      [st_error [Lit "Error: The file '"; FmtStr EXCEL_FILE_PATH;
                 Lit "' was not found. Please ensure it's in the correct directory in your GitHub repo."]]
  | _ =>
      [st_error [Lit "Error reading Excel file from path '"; FmtStr EXCEL_FILE_PATH; Lit "': ";
                 FmtExc e; Lit ". Please ensure it's a valid .xlsx file."]]
  end.

(** Lines 138-149.  The preview of line 143 is inside the [try]: were it to
    raise, the DataFrame already stored would be replaced by [None]. *)
Definition load (env : Env) (ss : gmap string (option DataFrame)) :
    list event * gmap string (option DataFrame) :=
  match read_excel env with
  | Ok df_loaded =>
      let ss' := <["df" := Some df_loaded]> ss in
      let shown :=
        [st_success [Lit "Excel sheet '"; FmtStr EXCEL_FILE_PATH; Lit "' loaded successfully!"];
         st_write [Lit "Here's a preview of your data:"]] in
      match show_dataframe env (head df_loaded) with
      | Ok _ => (shown ++ [st_dataframe (head df_loaded)], ss')%list
      | Raise e => (shown ++ load_failed e, <["df" := None]> ss')%list
      end
  | Raise e => (load_failed e, <["df" := None]> ss)
  end.

(** Lines 162-233: the body of [if st.button("Get Answer")].  Nothing
    catches an exception of the schema description. *)
Definition get_answer (env : Env) (df : DataFrame) : list event * DataFrame * option escaped :=
  let user_query := text_input env in
  if negb (bool_decide (user_query = "")) then
    match df_columns_info df with
    | Raise e => ([st_spinner], df, Some (Uncaught e))
    | Ok info =>
        let '(called, python_code) := call_gemini_api env (mkPrompt info user_query) in
        let '(shown, df', esc) := answer env python_code df in
        (st_spinner :: called ++ shown, df', esc)%list
    end
  else ([st_warning [Lit "Please enter a question to get an answer."]], df, None).

(** Lines 154-233: the query interface. *)
Definition query_interface (env : Env) (df : DataFrame) : list event * DataFrame * option escaped :=
  if button env then
    let '(shown, df', esc) := get_answer env df in
    (st_text_input :: st_button :: shown, df', esc)
  else ([st_text_input; st_button], df, None).

Definition main (env : Env) (ss : gmap string (option DataFrame)) : Run :=
  let ss0 := init_session ss in
  let '(loading, ss1) := load env ss0 in
  match ss1 !! "df" with
  | Some (Some df) =>
      let '(shown, df', esc) := query_interface env df in
      {| trace := loading ++ shown; session_state := <["df" := Some df']> ss1; uncaught := esc |}
  | _ => {| trace := loading; session_state := ss1; uncaught := None |}
  end.

(** ** Syntactic measures of an expression *)

(** Every name the expression mentions outside its [Other] nodes. *)
Fixpoint names (e : expr) : list string :=
  match e with
  | ast.Constant _ | ast.Other _ => []
  | ast.Name id => [id]
  | ast.Attribute v _ => names v
  | ast.Subscript v s => names v ++ names s
  | ast.Call f args => names f ++ flat_map names args
  | ast.Compare l _ r => names l ++ names r
  | ast.BoolOp _ l r => names l ++ names r
  | ast.IfExp t b o => names t ++ names b ++ names o
  | ast.List elts => flat_map names elts
  end.

(** The names at positions that are evaluated whenever the expression is:
    everything except the right operand of [and] and [or], the two branches
    of a conditional expression, and what an [Other] node holds. *)
Fixpoint evaluated_names (e : expr) : list string :=
  match e with
  | ast.Constant _ | ast.Other _ => []
  | ast.Name id => [id]
  | ast.Attribute v _ => evaluated_names v
  | ast.Subscript v s => evaluated_names v ++ evaluated_names s
  | ast.Call f args => evaluated_names f ++ flat_map evaluated_names args
  | ast.Compare l _ r => evaluated_names l ++ evaluated_names r
  | ast.BoolOp _ l _ => evaluated_names l
  | ast.IfExp t _ _ => evaluated_names t
  | ast.List elts => flat_map evaluated_names elts
  end.

(** The expression has no [Other] node and never takes the attribute [pop],
    the one in-place operation of the model. *)
Fixpoint read_only (e : expr) : bool :=
  match e with
  | ast.Constant _ | ast.Name _ => true
  | ast.Other _ => false
  | ast.Attribute v attr => negb (bool_decide (attr = "pop")) && read_only v
  | ast.Subscript v s => read_only v && read_only s
  | ast.Call f args => read_only f && forallb read_only args
  | ast.Compare l _ r => read_only l && read_only r
  | ast.BoolOp _ l r => read_only l && read_only r
  | ast.IfExp t b o => read_only t && read_only b && read_only o
  | ast.List elts => forallb read_only elts
  end.

(** A value through which [pop] cannot be called. *)
Fixpoint pop_free (v : value) : bool :=
  match v with
  | VBoundMethod self name => negb (bool_decide (name = "pop")) && pop_free self
  | VList l => forallb pop_free l
  | _ => true
  end.

(** Structural induction on expressions, through the argument lists. *)
Section expr_induction.
Variable P : expr → Prop.
Hypothesis HConstant : ∀ c, P (ast.Constant c).
Hypothesis HName : ∀ id, P (ast.Name id).
Hypothesis HAttribute : ∀ v attr, P v → P (ast.Attribute v attr).
Hypothesis HSubscript : ∀ v s, P v → P s → P (ast.Subscript v s).
Hypothesis HCall : ∀ f args, P f → Forall P args → P (ast.Call f args).
Hypothesis HCompare : ∀ l op r, P l → P r → P (ast.Compare l op r).
Hypothesis HBoolOp : ∀ op l r, P l → P r → P (ast.BoolOp op l r).
Hypothesis HIfExp : ∀ t b o, P t → P b → P o → P (ast.IfExp t b o).
Hypothesis HList : ∀ elts, Forall P elts → P (ast.List elts).
Hypothesis HOther : ∀ n, P (ast.Other n).

Fixpoint expr_nested_ind (e : expr) : P e :=
  let all := fix all (l : list expr) : Forall P l :=
    match l with
    | [] => Forall_nil_2 P
    | a :: l' => Forall_cons_2 P a l' (expr_nested_ind a) (all l')
    end in
  match e with
  | ast.Constant c => HConstant c
  | ast.Name id => HName id
  | ast.Attribute v attr => HAttribute v attr (expr_nested_ind v)
  | ast.Subscript v s => HSubscript v s (expr_nested_ind v) (expr_nested_ind s)
  | ast.Call f args => HCall f args (expr_nested_ind f) (all args)
  | ast.Compare l op r => HCompare l op r (expr_nested_ind l) (expr_nested_ind r)
  | ast.BoolOp op l r => HBoolOp op l r (expr_nested_ind l) (expr_nested_ind r)
  | ast.IfExp t b o => HIfExp t b o (expr_nested_ind t) (expr_nested_ind b) (expr_nested_ind o)
  | ast.List elts => HList elts (all elts)
  | ast.Other n => HOther n
  end.
End expr_induction.

(** ** Evaluation within the model *)

Definition is_outside {A} (o : outcome A) : bool :=
  match o with Escapes OutsideModel => true | _ => false end.

(** From the state [s] the evaluation of [e] takes only steps that the
    model describes: names, constants, the attributes [empty], [pop] and
    [sum], the subscripts of [frame_getitem], of a Series by row label and
    of a list by position, the calls [pop(label)] and [sum()], [==] and
    [!=] between scalars and between a Series and a scalar, [and], [or],
    the conditional expression and the list display.  This is decided by
    running the evaluation with the interpreter that refuses the rest. *)
Definition stays_in_model (py : Python) (globals : gmap string value) (e : expr) (s : State) : bool :=
  negb (is_outside (eval_expr (trapping py) globals e s).1).

(** The same for a [python_code] as [eval] receives it. *)
Definition in_model (env : Env) (python_code : json) (s : State) : bool :=
  match python_code with
  | JStr src =>
      match compile env src with
      | Some e => stays_in_model (python env) the_globals e s
      | None => true
      end
  | _ => true
  end.

(** The [python_code] compiles to nothing that takes [pop]. *)
Definition reads_only (env : Env) (python_code : json) : bool :=
  match python_code with
  | JStr src =>
      match compile env src with
      | Some e => read_only e
      | None => true
      end
  | _ => true
  end.

(** ** Sample data *)

Definition loans : DataFrame :=
  {| index := [0; 1; 2];
     columns :=
       [mkColumn "Customer Name" object_ [SStr "Rahul Sharma"; SStr "Priya Singh"; SStr "Rahul Sharma"];
        mkColumn "Loan Amount (INR)" int64 [SInt 100000; SInt 250000; SInt 400000]] |}.

Definition loans_labels (df : DataFrame) :
  @Ok DataFrame loans = Ok df → NoDup (label <$> columns df).
Proof.
  intros [= <-]. simpl.
  repeat (apply NoDup_cons; split; [rewrite ?elem_of_cons, ?elem_of_nil; intuition discriminate |]).
  apply NoDup_nil_2.
Qed.

(** The JSON text [{"python_code": "source"}] of an artifact. *)
Definition quote : string := String (Ascii.ascii_of_nat 34) "".

Definition artifact_text (source : string) : string :=
  "{" ++ quote ++ "python_code" ++ quote ++ ": " ++ quote ++ source ++ quote ++ "}".

(** A response whose first candidate carries [text]. *)
Definition envelope (text : string) : Response :=
  {| status_code := 200;
     json_body := Some (JObj [("candidates",
       JArr [JObj [("content", JObj [("parts", JArr [JObj [("text", JStr text)]])])]])]) |}.

(** CPython 3.11 with its default limit on the digits of an [int], to which
    nothing is handed but the steps of the model. *)
Definition cpython : Python := modelled_only true 4300.

(** An interpreter in which the [Other] node 0 is a call that ends the
    process, such as [df.__class__.__init__.__globals__['sys'].exit()]. *)
Definition exiting : Python :=
  {| debug := true;
     int_max_str_digits := 4300;
     other_node := λ n, match n with O => escape SystemExit | _ => escape OutsideModel end;
     other_builtin := λ _, escape OutsideModel;
     other_getattr := λ _ _, escape OutsideModel;
     other_getitem := λ _ _, escape OutsideModel;
     other_call := λ _ _, escape OutsideModel;
     other_compare := λ _ _ _, escape OutsideModel;
     other_truth := λ _, escape OutsideModel;
     other_format := λ _, Escapes OutsideModel |}.

(** An environment around one oracle response, in which [json.loads] knows
    the artifact for [source] and [compile] knows that [source] is [tree]. *)
Definition env_of (res : result Response) (source : string) (tree : expr) (query : string) : Env :=
  {| read_excel := Ok loans;
     text_input := query;
     button := true;
     post := res;
     body_error := λ _, JSONDecodeError;
     json_loads := λ s, if bool_decide (s = artifact_text source)
                        then Some (JObj [("python_code", JStr source)]) else None;
     loads_error := λ _, JSONDecodeError;
     compile := λ s, if bool_decide (s = source) then Some tree else None;
     compile_error := λ _, SyntaxError;
     python := cpython;
     ambient_state := 0;
     dataframe_error := ValueError;
     read_excel_labels := loans_labels |}.

(** The oracle answers the question with the expression [tree], written
    [source]. *)
Definition answering (source : string) (tree : expr) : Env :=
  env_of (Ok (envelope (artifact_text source))) source tree "What is the total loan amount?".

(** The button is pressed on an empty question. *)
Definition empty_click : Env :=
  env_of (Raise (RequestError "unreachable")) "" (ast.Name "df") "".

(** The oracle answers with the artifact [{"python_code": ""}]. *)
Definition empty_artifact : Env := answering "" (ast.Name "df").

(** A frame in which two columns carry the same label. *)
Definition twice_labelled : DataFrame :=
  {| index := [0];
     columns := [mkColumn "Loan ID" int64 [SInt 1]; mkColumn "Loan ID" object_ [SStr "L-1"]] |}.

(** The environment with another outcome of the POST. *)
Definition with_post (env : Env) (res : result Response) : Env :=
  {| read_excel := read_excel env;
     text_input := text_input env;
     button := button env;
     post := res;
     body_error := body_error env;
     json_loads := json_loads env;
     loads_error := loads_error env;
     compile := compile env;
     compile_error := compile_error env;
     python := python env;
     ambient_state := ambient_state env;
     dataframe_error := dataframe_error env;
     read_excel_labels := read_excel_labels env |}.

(** The environment with another interpreter. *)
Definition with_python (env : Env) (py : Python) : Env :=
  {| read_excel := read_excel env;
     text_input := text_input env;
     button := button env;
     post := post env;
     body_error := body_error env;
     json_loads := json_loads env;
     loads_error := loads_error env;
     compile := compile env;
     compile_error := compile_error env;
     python := py;
     ambient_state := ambient_state env;
     dataframe_error := dataframe_error env;
     read_excel_labels := read_excel_labels env |}.

(** The environment in which [json.loads] and [response.json()] fail with
    [e]. *)
Definition with_decoding_error (env : Env) (e : exception) : Env :=
  {| read_excel := read_excel env;
     text_input := text_input env;
     button := button env;
     post := post env;
     body_error := λ _, e;
     json_loads := json_loads env;
     loads_error := λ _, e;
     compile := compile env;
     compile_error := compile_error env;
     python := python env;
     ambient_state := ambient_state env;
     dataframe_error := dataframe_error env;
     read_excel_labels := read_excel_labels env |}.

(** ** Sample expressions *)

(** [1 or os]. *)
Definition one_or_os : expr :=
  ast.BoolOp ast.Or (ast.Constant (SInt 1)) (ast.Name "os").

(** [os.environ]. *)
Definition os_environ : expr := ast.Attribute (ast.Name "os") "environ".

(** [df.pop('Customer Name')]. *)
Definition pop_customer : expr :=
  ast.Call (ast.Attribute (ast.Name "df") "pop") [ast.Constant (SStr "Customer Name")].

(** [df['Loan Amount (INR)'].sum()]. *)
Definition sum_amount : expr :=
  ast.Call (ast.Attribute (ast.Subscript (ast.Name "df") (ast.Constant (SStr "Loan Amount (INR)")))
                          "sum") [].

(** [df[df['Customer Name'] == who]]. *)
Definition loans_of (who : string) : expr :=
  ast.Subscript (ast.Name "df")
    (ast.Compare (ast.Subscript (ast.Name "df") (ast.Constant (SStr "Customer Name")))
                 ast.Eq (ast.Constant (SStr who))).

(** [df[['Customer Name', 'Customer Name']]]: the same column twice. *)
Definition name_twice : expr :=
  ast.Subscript (ast.Name "df")
    (ast.List [ast.Constant (SStr "Customer Name"); ast.Constant (SStr "Customer Name")]).

(** The value of [df[[]]] on [loans]: three rows, no column. *)
Definition no_columns : DataFrame := {| index := [0; 1; 2]; columns := [] |}.

(** The value of [name_twice] on [loans]. *)
Definition names_twice : DataFrame :=
  {| index := [0; 1; 2];
     columns :=
       [mkColumn "Customer Name" object_ [SStr "Rahul Sharma"; SStr "Priya Singh"; SStr "Rahul Sharma"];
        mkColumn "Customer Name" object_ [SStr "Rahul Sharma"; SStr "Priya Singh"; SStr "Rahul Sharma"]] |}.

(** The [int] written [0x1] followed by 4000 zeros: 4817 decimal digits. *)
Definition huge : Z := Z.shiftl 1 16000.

(** ** Vocabulary of the statements *)

(** Under [m] the namespace and the ambient state stay as they are, and [m]
    ends in no interrupt but [OutsideModel]. *)
Definition tame {A} (m : M A) : Prop :=
  ∀ s, namespace (m s).2 = namespace s ∧ ambient (m s).2 = ambient s ∧
       ∀ i, (m s).1 = Escapes i → i = OutsideModel.

(** [m] returns no value from a state with the namespace of line 209. *)
Definition fails {A} (m : M A) : Prop :=
  ∀ s, namespace s = local_vars → ∀ a, (m s).1 ≠ Returns a.

(** From a state with the namespace of line 209, [m] writes nothing, and
    its value satisfies [P]. *)
Definition steady {A} (P : A → Prop) (m : M A) : Prop :=
  ∀ s, namespace s = local_vars → (m s).2 = s ∧ ∀ a, (m s).1 = Returns a → P a.

Abbreviation harmless := (steady (λ v, pop_free v = true)).

(** [m] does what [m'] does wherever [m'] stays in the model. *)
Definition follows {A} (m m' : M A) : Prop :=
  ∀ s, is_outside (m' s).1 = false → m s = m' s.

(** The calls of the query interface: its widgets and the pipeline. *)
Definition is_query_event (ev : event) : bool :=
  match ev with
  | st_text_input | st_button | st_spinner | client_post _ | eval_call _ => true
  | _ => false
  end.

(** The calls of the pipeline proper. *)
Definition is_pipeline_event (ev : event) : bool :=
  match ev with
  | st_spinner | client_post _ | eval_call _ => true
  | _ => false
  end.

(** The entry of one column: its label in quotes and its dtype in
    parentheses. *)
Definition entry (c : Column) : string :=
  "'" ++ label c ++ "' (" ++ dtype_str (col_dtype c) ++ ")".

(** [df[df[c] == v]]: the rows whose cell in column [c] equals [v]. *)
Definition rows_where (c : string) (v : scalar) : expr :=
  ast.Subscript (ast.Name "df")
    (ast.Compare (ast.Subscript (ast.Name "df") (ast.Constant (SStr c)))
                 ast.Eq (ast.Constant v)).

(** The body of a response has the structure lines 55-57 look for, and the
    first part of its first candidate carries [text]. *)
Definition carries (body text : json) : Prop :=
  ∃ fs c cs k p ps,
    body = JObj fs ∧
    dict_lookup fs "candidates" = Some (JArr (JObj c :: cs)) ∧
    dict_lookup c "content" = Some (JObj k) ∧
    dict_lookup k "parts" = Some (JArr (JObj p :: ps)) ∧
    dict_lookup p "text" = Some text.

(** One of the three tests of lines 55-56 fails on the body: it has no
    (or a falsy) [candidates], or its first candidate no [content], or that
    content no [parts]. *)
Definition lacks_structure (body : json) : Prop :=
  ∃ fs, body = JObj fs ∧
    (truthy (default JNull (dict_lookup fs "candidates")) = false ∨
     ∃ c cs, dict_lookup fs "candidates" = Some (JArr (JObj c :: cs)) ∧
       (truthy (default JNull (dict_lookup c "content")) = false ∨
        ∃ k, dict_lookup c "content" = Some (JObj k) ∧
             truthy (default JNull (dict_lookup k "parts")) = false)).

Definition is_post (ev : event) : bool :=
  match ev with client_post _ => true | _ => false end.

Definition is_eval (ev : event) : bool :=
  match ev with eval_call _ => true | _ => false end.

(** How many calls of a kind a trace holds. *)
Fixpoint tally (kind : event → bool) (t : list event) : nat :=
  match t with
  | [] => 0
  | ev :: t' => (if kind ev then 1 else 0) + tally kind t'
  end.

(** How many columns carry the label [k]. *)
Definition carriers (k : string) (cs : list Column) : nat :=
  length (filter (λ c, label c = k) cs).

(** A response with the given status and no JSON body. *)
Definition bare_status (status : Z) : Env :=
  env_of (Ok (mkResponse status None)) "" (ast.Name "df") "What is the total loan amount?".

(** The body of [envelope text]. *)
Definition structured (text : string) : json :=
  JObj [("candidates",
         JArr [JObj [("content", JObj [("parts", JArr [JObj [("text", JStr text)]])])]])].

(** [df[k]]: the column labelled [k]. *)
Definition column (k : string) : expr :=
  ast.Subscript (ast.Name "df") (ast.Constant (SStr k)).

(** [df.pop(k)]. *)
Definition pop_column (k : string) : expr :=
  ast.Call (ast.Attribute (ast.Name "df") "pop") [ast.Constant (SStr k)].

(** ** Computations of the interpreter that refuses the rest *)

Lemma tame_ret {A} (a : A) : tame (ret a).
Proof. intros s. repeat split. intros i [=]. Qed.

Lemma tame_raise {A} e : tame (@raise A e).
Proof. intros s. repeat split. intros i [=]. Qed.

Lemma tame_outside {A} : tame (@escape A OutsideModel).
Proof. intros s. repeat split. by intros i [= <-]. Qed.

Lemma tame_lift {A} (r : result A) : tame (lift r).
Proof. destruct r; [apply tame_ret | apply tame_raise]. Qed.

Lemma tame_get_frame : tame get_frame.
Proof. intros s. repeat split. intros i [=]. Qed.

Lemma tame_put_frame f : tame (put_frame f).
Proof. intros s. repeat split. intros i [=]. Qed.

Lemma tame_bind {A B} (m : M A) (k : A → M B) :
  tame m → (∀ a, tame (k a)) → tame (bind m k).
Proof.
  intros Hm Hk s. unfold bind.
  destruct (Hm s) as (Hn & Ha & Hi). destruct (m s) as [[a | e | i] s']; simpl in *.
  - destruct (Hk a s') as (Hn' & Ha' & Hi'). rewrite Hn', Ha'. by repeat split.
  - repeat split; [done | done |]. intros i [=].
  - repeat split; [done | done |]. intros j [= <-]. by apply Hi.
Qed.

Ltac tame_step :=
  first [ apply tame_ret | apply tame_raise | apply tame_outside | apply tame_lift
        | apply tame_get_frame | apply tame_put_frame
        | (apply tame_bind; [| intros ?]) ].

Ltac tame_ops := repeat (tame_step || case_match).

Lemma truth_tame py v : tame (truth (trapping py) v).
Proof. unfold truth. tame_ops. Qed.

Lemma getitem_tame py o k : tame (getitem (trapping py) o k).
Proof. unfold getitem. tame_ops. Qed.

Lemma getattr_tame py o a : tame (getattr (trapping py) o a).
Proof. unfold getattr. tame_ops. Qed.

Lemma call_tame py f args : tame (call (trapping py) f args).
Proof. unfold call, pop. tame_ops. Qed.

Lemma compare_tame py op a b : tame (compare (trapping py) op a b).
Proof. unfold compare. tame_ops. Qed.

Lemma load_name_tame py globals id : tame (load_name (trapping py) globals id).
Proof.
  unfold load_name. case_match; [apply tame_ret |]. intros s.
  repeat case_match; simpl; repeat split; by intros i [= <-] || intros i [=].
Qed.

Lemma eval_list_tame ev l : Forall (λ a, tame (ev a)) l → tame (eval_list ev l).
Proof. induction 1; simpl; tame_ops; done. Qed.

Lemma eval_expr_tame py globals e : tame (eval_expr (trapping py) globals e).
Proof.
  induction e as [c | id | v attr IHv | v s IHv IHs | f args IHf IHargs
                 | l op r IHl IHr | op l r IHl IHr | t b o IHt IHb IHo | elts IHelts | n]
    using expr_nested_ind; cbn [eval_expr].
  - apply tame_ret.
  - apply load_name_tame.
  - apply tame_bind; [done |]. intros o. apply getattr_tame.
  - apply tame_bind; [done |]. intros o. apply tame_bind; [done |]. intros k. apply getitem_tame.
  - apply tame_bind; [done |]. intros fv.
    apply tame_bind; [by apply eval_list_tame |]. intros avs. apply call_tame.
  - apply tame_bind; [done |]. intros a. apply tame_bind; [done |]. intros b. apply compare_tame.
  - apply tame_bind; [done |]. intros a. apply tame_bind; [apply truth_tame |].
    intros t. destruct op, t; done || apply tame_ret.
  - apply tame_bind; [done |]. intros c. apply tame_bind; [apply truth_tame |].
    by intros [].
  - apply tame_bind; [by apply eval_list_tame |]. intros vs. apply tame_ret.
  - apply tame_outside.
Qed.

(** ** An interpreter does what the model says, where the model says it *)

Lemma follows_refl {A} (m : M A) : follows m m.
Proof. by intros s _. Qed.

Lemma follows_outside {A} (m : M A) : follows m (escape OutsideModel).
Proof. by intros s. Qed.

Lemma follows_bind {A B} (m m' : M A) (k k' : A → M B) :
  follows m m' → (∀ a, follows (k a) (k' a)) → follows (bind m k) (bind m' k').
Proof.
  intros Hm Hk s. unfold bind. specialize (Hm s).
  destruct (m' s) as [[a | e | i] s'] eqn:Hm'; simpl in *.
  - rewrite Hm by done. apply Hk.
  - by rewrite Hm.
  - intros Hi. by rewrite Hm.
Qed.

Ltac follows_step :=
  first [ apply follows_refl | apply follows_outside
        | (apply follows_bind; [| intros ?]) ].

Ltac follows_ops := repeat (follows_step || case_match).

Lemma truth_follows py v : follows (truth py v) (truth (trapping py) v).
Proof. unfold truth. follows_ops. Qed.

Lemma getitem_follows py o k : follows (getitem py o k) (getitem (trapping py) o k).
Proof. unfold getitem. follows_ops. Qed.

Lemma getattr_follows py o a : follows (getattr py o a) (getattr (trapping py) o a).
Proof. unfold getattr. follows_ops. Qed.

Lemma call_follows py f args : follows (call py f args) (call (trapping py) f args).
Proof. unfold call, pop. follows_ops. Qed.

Lemma compare_follows py op a b : follows (compare py op a b) (compare (trapping py) op a b).
Proof. unfold compare. follows_ops. Qed.

Lemma load_name_follows py globals id :
  follows (load_name py globals id) (load_name (trapping py) globals id).
Proof.
  unfold load_name. simpl. case_match; [apply follows_refl |]. intros s.
  repeat case_match; simpl; done.
Qed.

Lemma eval_list_follows ev ev' l :
  Forall (λ a, follows (ev a) (ev' a)) l → follows (eval_list ev l) (eval_list ev' l).
Proof. induction 1; simpl; follows_ops; done. Qed.

Lemma eval_expr_follows py globals e :
  follows (eval_expr py globals e) (eval_expr (trapping py) globals e).
Proof.
  induction e as [c | id | v attr IHv | v s IHv IHs | f args IHf IHargs
                 | l op r IHl IHr | op l r IHl IHr | t b o IHt IHb IHo | elts IHelts | n]
    using expr_nested_ind; cbn [eval_expr].
  - apply follows_refl.
  - apply load_name_follows.
  - apply follows_bind; [done |]. intros o. apply getattr_follows.
  - apply follows_bind; [done |]. intros o. apply follows_bind; [done |]. intros k.
    apply getitem_follows.
  - apply follows_bind; [done |]. intros fv.
    apply follows_bind; [by apply eval_list_follows |]. intros avs. apply call_follows.
  - apply follows_bind; [done |]. intros a. apply follows_bind; [done |]. intros b.
    apply compare_follows.
  - apply follows_bind; [done |]. intros a. apply follows_bind; [apply truth_follows |].
    intros t. destruct op, t; done || apply follows_refl.
  - apply follows_bind; [done |]. intros c. apply follows_bind; [apply truth_follows |].
    by intros [].
  - apply follows_bind; [by apply eval_list_follows |]. intros vs. apply follows_refl.
  - apply follows_outside.
Qed.

(** An evaluation that stays in the model is the evaluation of the
    model. *)
Lemma eval_in_model py globals e s :
  stays_in_model py globals e s = true →
  eval_expr py globals e s = eval_expr (trapping py) globals e s.
Proof.
  unfold stays_in_model. intros H. apply eval_expr_follows. by apply negb_true_iff.
Qed.

(** ** Computations that return nothing *)

Lemma fails_bind_l {A B} (m : M A) (k : A → M B) : fails m → fails (bind m k).
Proof.
  intros Hm s Hs b. specialize (Hm s Hs). unfold bind.
  destruct (m s) as [[a | e | i] s']; simpl in *; [by destruct (Hm a) | done | done].
Qed.

Lemma fails_bind_r {A B} (m : M A) (k : A → M B) :
  tame m → (∀ a, fails (k a)) → fails (bind m k).
Proof.
  intros Hm Hk s Hs b. destruct (Hm s) as (Hn & _). unfold bind.
  destruct (m s) as [[a | e | i] s']; simpl in *; [| done | done].
  apply Hk. by rewrite Hn.
Qed.

Lemma eval_list_fails ev l :
  Forall (λ a, tame (ev a)) l → Exists (λ a, fails (ev a)) l → fails (eval_list ev l).
Proof.
  intros Htame. induction 1 as [a l Ha | a l _ IH]; simpl;
    apply Forall_cons in Htame as [Hta Htl].
  - by apply fails_bind_l.
  - apply fails_bind_r; [done |]. intros v. apply fails_bind_l. by apply IH.
Qed.

(** Outside [df], [pd], [__builtins__] and [__debug__] no name resolves. *)
Lemma load_name_unbound py id s :
  id ≠ "df" → id ≠ "pd" → id ≠ "__builtins__" → id ≠ "__debug__" →
  namespace s = local_vars →
  load_name py the_globals id s = (Raises TypeError, s).
Proof.
  intros Hdf Hpd Hb Hd Hs. unfold load_name.
  rewrite (bool_decide_eq_false_2 _ Hd), Hs. unfold local_vars, the_globals.
  rewrite lookup_insert_ne by done.
  rewrite !lookup_singleton_ne by done.
  by rewrite lookup_singleton_eq.
Qed.

Lemma eval_expr_unbound py e x :
  x ∈ evaluated_names e →
  x ≠ "df" → x ≠ "pd" → x ≠ "__builtins__" → x ≠ "__debug__" →
  fails (eval_expr (trapping py) the_globals e).
Proof.
  intros Hx Hdf Hpd Hb Hd. revert Hx.
  pose proof (eval_expr_tame py the_globals) as Htame.
  induction e as [c | id | v attr IHv | v s IHv IHs | f args IHf IHargs
                 | l op r IHl IHr | op l r IHl IHr | t b o IHt IHb IHo | elts IHelts | n]
    using expr_nested_ind; cbn [eval_expr evaluated_names]; intros Hx.
  - by apply elem_of_nil in Hx.
  - apply list_elem_of_singleton in Hx as ->. intros s Hs a.
    by rewrite load_name_unbound.
  - apply fails_bind_l; auto.
  - apply elem_of_app in Hx as [Hx | Hx].
    + apply fails_bind_l; auto.
    + apply fails_bind_r; [done |]. intros o. apply fails_bind_l; auto.
  - apply elem_of_app in Hx as [Hx | Hx].
    + apply fails_bind_l; auto.
    + apply fails_bind_r; [done |]. intros fv. apply fails_bind_l, eval_list_fails.
      { apply Forall_forall. auto. }
      apply list_elem_of_In, in_flat_map in Hx as (a & Ha & Hxa).
      apply Exists_exists. exists a. split; [by apply list_elem_of_In |].
      rewrite Forall_forall in IHargs. apply IHargs; by apply list_elem_of_In.
  - apply elem_of_app in Hx as [Hx | Hx].
    + apply fails_bind_l; auto.
    + apply fails_bind_r; [done |]. intros a. apply fails_bind_l; auto.
  - apply fails_bind_l; auto.
  - apply fails_bind_l; auto.
  - apply fails_bind_l, eval_list_fails.
    { apply Forall_forall. auto. }
    apply list_elem_of_In, in_flat_map in Hx as (a & Ha & Hxa).
    apply Exists_exists. exists a. split; [by apply list_elem_of_In |].
    rewrite Forall_forall in IHelts. apply IHelts; by apply list_elem_of_In.
  - by apply elem_of_nil in Hx.
Qed.

(** ** Computations that leave the state alone *)

Lemma steady_ret {A} (P : A → Prop) a : P a → steady P (ret a).
Proof. intros Ha s _. split; [done |]. by intros a' [= <-]. Qed.

Lemma steady_raise {A} (P : A → Prop) e : steady P (raise e).
Proof. intros s _. split; [done |]. by intros a' [=]. Qed.

Lemma steady_outside {A} (P : A → Prop) : steady P (escape OutsideModel).
Proof. intros s _. split; [done |]. by intros a' [=]. Qed.

Lemma steady_lift {A} (P : A → Prop) (r : result A) :
  (∀ a, r = Ok a → P a) → steady P (lift r).
Proof.
  intros Hr s _. split; [by destruct r |]. destruct r; simpl; [| done].
  intros a' [= <-]. by apply Hr.
Qed.

Lemma steady_bind {A B} (Q : A → Prop) (P : B → Prop) (m : M A) (k : A → M B) :
  steady Q m → (∀ a, Q a → steady P (k a)) → steady P (bind m k).
Proof.
  intros Hm Hk s Hs. unfold bind.
  destruct (Hm s Hs) as [Hσ Ha]. destruct (m s) as [[a | e | i] s']; simpl in *; subst s'.
  - apply Hk; [by apply Ha | done].
  - split; [done |]. by intros b [=].
  - split; [done |]. by intros b [=].
Qed.

Lemma steady_get_frame : steady (λ _, True) get_frame.
Proof. intros s _. by split. Qed.

Lemma load_name_harmless py id : harmless (load_name (trapping py) the_globals id).
Proof.
  intros s Hs. unfold load_name.
  destruct (decide (id = "__debug__")) as [-> | Hd].
  { split; [done |]. by intros a [= <-]. }
  rewrite (bool_decide_eq_false_2 _ Hd), Hs. unfold local_vars, the_globals.
  destruct (decide (id = "df")) as [-> | Hdf]; [split; [done | by intros a [= <-]] |].
  destruct (decide (id = "pd")) as [-> | Hpd]; [split; [done | by intros a [= <-]] |].
  destruct (decide (id = "__builtins__")) as [-> | Hb]; [split; [done | by intros a [= <-]] |].
  rewrite lookup_insert_ne by done.
  rewrite !lookup_singleton_ne by done.
  rewrite lookup_singleton_eq. split; [done |]. by intros a [=].
Qed.

Lemma frame_getitem_pop_free f key v :
  frame_getitem f key = Some (Ok v) → pop_free v = true.
Proof.
  unfold frame_getitem. intros H.
  repeat (match type of H with
          | context [match ?x with _ => _ end] => destruct x eqn:?
          | context [if ?x then _ else _] => destruct x eqn:?
          end; try discriminate);
  injection H as <-; try reflexivity.
  by match goal with s : selection |- _ => destruct s end.
Qed.

Lemma frame_getitem_harmless py f o key :
  harmless (match frame_getitem f key with
            | Some r => lift r
            | None => other_getitem (trapping py) o key
            end).
Proof.
  destruct (frame_getitem f key) as [r |] eqn:Hr; [| apply steady_outside].
  apply steady_lift. intros v ->. by eapply frame_getitem_pop_free.
Qed.

Lemma list_getitem_pop_free l i v :
  forallb pop_free l = true → list_getitem l i = Ok v → pop_free v = true.
Proof.
  unfold list_getitem. intros Hl H.
  destruct (_ <? 0)%Z; [discriminate |].
  destruct (l !! _) as [w|] eqn:Hw; [| discriminate]. injection H as <-.
  rewrite forallb_forall in Hl. apply Hl, list_elem_of_In.
  by eapply list_elem_of_lookup_2.
Qed.

Lemma getitem_harmless py o key :
  pop_free o = true → harmless (getitem (trapping py) o key).
Proof.
  intros Ho. destruct o as [s | l | s | f | | | self name | n]; cbn [getitem].
  - destruct s; apply steady_raise || apply steady_outside.
  - destruct key as [[]| | | | | | |]; try apply steady_raise; try apply steady_outside;
      apply steady_lift; intros v; by apply list_getitem_pop_free.
  - destruct key as [[]| | | | | | |]; try apply steady_outside.
    destruct (at_label _ _ _); [by apply steady_ret | apply steady_raise].
  - apply frame_getitem_harmless.
  - eapply steady_bind; [apply steady_get_frame |]. intros σ _.
    apply frame_getitem_harmless.
  - apply steady_raise.
  - apply steady_raise.
  - apply steady_outside.
Qed.

Lemma getattr_harmless py o attr :
  pop_free o = true → attr ≠ "pop" → harmless (getattr (trapping py) o attr).
Proof.
  intros Ho Hattr. unfold getattr.
  destruct o as [s | l | s | f | | | self name | n]; try apply steady_outside;
    rewrite ?(bool_decide_eq_false_2 _ Hattr);
    repeat (destruct (bool_decide _)); try apply steady_outside;
    try (by apply steady_ret).
  eapply steady_bind; [apply steady_get_frame |]. intros σ _. by apply steady_ret.
Qed.

Lemma call_harmless py f args :
  pop_free f = true → harmless (call (trapping py) f args).
Proof.
  intros Hf. unfold call.
  destruct f as [s | l | s | g | | | self name | n];
    try apply steady_raise; try apply steady_outside.
  simpl in Hf. apply andb_true_iff in Hf as [Hname _].
  apply negb_true_iff, bool_decide_eq_false in Hname.
  rewrite (bool_decide_eq_false_2 _ Hname).
  destruct (bool_decide (name = "sum")); [| apply steady_outside].
  destruct self; try apply steady_outside.
  destruct args; [| apply steady_outside].
  destruct (series_sum _); [by apply steady_ret | apply steady_outside].
Qed.

Lemma compare_harmless py op a b : harmless (compare (trapping py) op a b).
Proof.
  unfold compare.
  repeat case_match; try apply steady_outside; by apply steady_ret.
Qed.

Lemma truth_steady py v : steady (λ _, True) (truth (trapping py) v).
Proof.
  unfold truth.
  repeat case_match; try apply steady_outside; try apply steady_raise; by apply steady_ret.
Qed.

Lemma eval_list_harmless ev l :
  Forall (λ a, read_only a = true → harmless (ev a)) l →
  forallb read_only l = true →
  steady (λ vs, forallb pop_free vs = true) (eval_list ev l).
Proof.
  induction 1 as [| a l Ha _ IH]; simpl; intros Hl.
  - by apply steady_ret.
  - apply andb_true_iff in Hl as [Hro Hl].
    eapply steady_bind; [by apply Ha |]. intros v Hv.
    eapply steady_bind; [by apply IH |]. intros vs Hvs.
    apply steady_ret. simpl. by rewrite Hv, Hvs.
Qed.

(** Within the model a read-only expression leaves the state as it was and
    yields no handle on [pop]. *)
Lemma eval_expr_read_only py e :
  read_only e = true → harmless (eval_expr (trapping py) the_globals e).
Proof.
  induction e as [c | id | v attr IHv | v s IHv IHs | f args IHf IHargs
                 | l op r IHl IHr | op l r IHl IHr | t b o IHt IHb IHo | elts IHelts | n]
    using expr_nested_ind; cbn [eval_expr read_only]; intros Hro;
    repeat (match goal with
            | H : _ && _ = true |- _ => apply andb_true_iff in H as [? ?]
            end).
  - by apply steady_ret.
  - apply load_name_harmless.
  - eapply steady_bind; [by apply IHv |]. intros o Ho.
    apply getattr_harmless; [done |]. by case_bool_decide.
  - eapply steady_bind; [by apply IHv |]. intros o Ho.
    eapply steady_bind; [by apply IHs |]. intros k _.
    by apply getitem_harmless.
  - eapply steady_bind; [by apply IHf |]. intros fv Hfv.
    eapply steady_bind; [by apply eval_list_harmless |]. intros avs _.
    by apply call_harmless.
  - eapply steady_bind; [by apply IHl |]. intros a _.
    eapply steady_bind; [by apply IHr |]. intros b _.
    apply compare_harmless.
  - eapply steady_bind; [by apply IHl |]. intros a Ha.
    eapply steady_bind; [apply truth_steady |]. intros t _.
    destruct op, t; auto using steady_ret.
  - eapply steady_bind; [by apply IHt |]. intros c _.
    eapply steady_bind; [apply truth_steady |]. intros [] _; auto.
  - eapply steady_bind; [by apply eval_list_harmless |]. intros vs Hvs.
    by apply steady_ret.
  - discriminate.
Qed.

(** An evaluation of a read-only [python_code] that stays in the model
    leaves the state as it was. *)
Lemma py_eval_read_only env python_code s :
  namespace s = local_vars →
  reads_only env python_code = true →
  in_model env python_code s = true →
  (py_eval env python_code the_globals s).2 = s.
Proof.
  intros Hs Hro Hin. unfold py_eval, reads_only, in_model in *.
  destruct python_code as [| | | | src | |]; try reflexivity.
  destruct (compile env src) as [e|] eqn:He; [| reflexivity].
  rewrite eval_in_model by done.
  by apply eval_expr_read_only.
Qed.

(** ** The safe evaluator: names *)

(** [1 or os] mentions [os] and evaluates to [1]: the right operand of [or]
    is never reached. *)
Example one_or_os_value :
  py_eval (answering "1 or os" one_or_os) (JStr "1 or os") the_globals (start loans 0)
  = (Returns (VScalar (SInt 1)), start loans 0).
Proof. reflexivity. Qed.

(** The globals [{'__builtins__': None}] bind one name of their own. *)
Example builtins_name_value :
  eval_expr cpython the_globals (ast.Name "__builtins__") (start loans 0)
  = (Returns (VScalar SNone), start loans 0).
Proof. reflexivity. Qed.

(** [__debug__] is bound in no namespace and has a value all the same. *)
Example debug_name_value :
  eval_expr cpython the_globals (ast.Name "__debug__") (start loans 0)
  = (Returns (VScalar (SBool true)), start loans 0).
Proof. reflexivity. Qed.

(** The builtin [len] of the prompt's own example is not available. *)
Example len_is_unbound :
  eval_expr cpython the_globals (ast.Call (ast.Name "len") [ast.Name "df"]) (start loans 0)
  = (Raises TypeError, start loans 0).
Proof. reflexivity. Qed.




(** ** The safe evaluator: the Dataset *)

(** [df.pop('Customer Name')] returns the column and removes it from the
    session's DataFrame. *)
Example pop_customer_value :
  py_eval (answering "df.pop('Customer Name')" pop_customer) (JStr "df.pop('Customer Name')")
          the_globals (start loans 0)
  = (Returns (VSeries (mkSeries [0; 1; 2] object_
                    [SStr "Rahul Sharma"; SStr "Priya Singh"; SStr "Rahul Sharma"])),
     start {| index := [0; 1; 2];
              columns := [mkColumn "Loan Amount (INR)" int64 [SInt 100000; SInt 250000; SInt 400000]] |}
           0).
Proof. reflexivity. Qed.







(** ** The result renderer *)

(** [df[[]]] keeps the three rows and no column. *)
Example empty_projection_value :
  eval_expr cpython the_globals (ast.Subscript (ast.Name "df") (ast.List [])) (start loans 0)
  = (Returns (VFrame no_columns), start loans 0).
Proof. reflexivity. Qed.

(** [df[['Customer Name', 'Customer Name']]] is a DataFrame in which two
    columns carry the same label. *)
Example same_column_twice_value :
  eval_expr cpython the_globals name_twice (start loans 0)
  = (Returns (VFrame names_twice), start loans 0).
Proof. reflexivity. Qed.

(** It is not shown: [st.dataframe] raises after the subheader, and the run
    goes on to the execution-error notice. *)
Example same_column_twice_is_an_error :
  evaluate (answering "df[['Customer Name', 'Customer Name']]" name_twice)
           (JStr "df[['Customer Name', 'Customer Name']]") (start loans 0)
  = ([eval_call (JStr "df[['Customer Name', 'Customer Name']]");
      st_subheader [Lit "Here is your extracted data:"];
      st_error [Lit "An error occurred while executing the generated code. This might be due to a complex query or an issue with the data. Please try rephrasing your question. Error: ";
                FmtExc ValueError];
      st_code [Lit "Generated code (for debugging): ";
               FmtJson (JStr "df[['Customer Name', 'Customer Name']]")]],
     start loans 0, None).
Proof. reflexivity. Qed.



(** The text of [huge] has more digits than [str] accepts: the block ends
    in the [ValueError] of the f-string, after the subheader. *)
Example huge_has_no_text :
  render empty_click (VScalar (SInt huge)) loans
  = ([st_subheader [Lit "Here is your answer:"]], Raises ValueError).
Proof. vm_compute. reflexivity. Qed.




(** ** The session controller *)

Lemma head_labels df : label <$> columns (head df) = label <$> columns df.
Proof. unfold head. simpl. rewrite <- list_fmap_compose. by apply list_fmap_ext. Qed.

(** The preview of a sheet that was read is shown: its labels are
    distinct. *)
Lemma load_ok env ss df :
  read_excel env = Ok df →
  load env ss
  = ([st_success [Lit "Excel sheet '"; FmtStr EXCEL_FILE_PATH; Lit "' loaded successfully!"];
      st_write [Lit "Here's a preview of your data:"];
      st_dataframe (head df)],
     <["df" := Some df]> ss).
Proof.
  intros Hload. unfold load, show_dataframe. rewrite Hload, head_labels.
  by rewrite bool_decide_eq_true_2 by (by apply (read_excel_labels env)).
Qed.

Lemma load_raise env ss e :
  read_excel env = Raise e → load env ss = (load_failed e, <["df" := None]> ss).
Proof. intros Hload. unfold load. by rewrite Hload. Qed.

(** C6: when the load fails the run shows one error notice, leaves
    [st.session_state.df] at [None] and makes no call of the query
    interface; when the load succeeds the question input is shown and the
    session holds a DataFrame. *)
Theorem query_interface_needs_load env ss :
  let r := main env ss in
  match read_excel env with
  | Raise e =>
      session_state r !! "df" = Some None ∧
      (∃ body, trace r = [st_error body]) ∧
      uncaught r = None ∧
      Forall (λ ev, is_query_event ev = false) (trace r)
  | Ok df =>
      st_text_input ∈ trace r ∧ ∃ df', session_state r !! "df" = Some (Some df')
  end.
Proof.
  unfold main. destruct (read_excel env) as [df | e] eqn:Hload.
  - rewrite (load_ok env _ df Hload), lookup_insert_eq.
    destruct (query_interface env df) as [[shown df'] exc] eqn:Hq. simpl.
    rewrite lookup_insert_eq. split; [| by eexists].
    unfold query_interface in Hq.
    destruct (button env); [destruct (get_answer env df) as [[? ?] ?] |];
      injection Hq as <- _ _; rewrite !elem_of_cons; auto.
  - rewrite (load_raise env _ e Hload), lookup_insert_eq.
    destruct e; simpl; rewrite lookup_insert_eq;
      (split; [done |]); (split; [by eexists |]); (split; [done |]);
      by repeat constructor.
Qed.

(** C7: with a DataFrame loaded and the button pressed on an empty question,
    the run shows the prompt to enter a question and makes no call of the
    pipeline: no spinner, no request to the oracle, no evaluation. *)
Theorem empty_question_is_rejected env ss df :
  read_excel env = Ok df → button env = true → text_input env = "" →
  let r := main env ss in
  trace r = ((load env (init_session ss)).1 ++
             [st_text_input; st_button;
              st_warning [Lit "Please enter a question to get an answer."]])%list ∧
  Forall (λ ev, is_pipeline_event ev = false) (trace r) ∧
  session_state r !! "df" = Some (Some df) ∧
  uncaught r = None.
Proof.
  intros Hload Hbutton Hquery. unfold main. rewrite (load_ok env _ df Hload).
  rewrite lookup_insert_eq. unfold query_interface, get_answer.
  rewrite Hbutton, Hquery. simpl. rewrite lookup_insert_eq.
  repeat split. by repeat constructor.
Qed.

Lemma empty_question_is_rejected_witness :
  read_excel empty_click = Ok loans ∧ button empty_click = true ∧ text_input empty_click = "" ∧
  trace (main empty_click ∅)
  = [st_success [Lit "Excel sheet '"; FmtStr EXCEL_FILE_PATH; Lit "' loaded successfully!"];
     st_write [Lit "Here's a preview of your data:"];
     st_dataframe loans;
     st_text_input; st_button;
     st_warning [Lit "Please enter a question to get an answer."]] ∧
  Forall (λ ev, is_pipeline_event ev = false) (trace (main empty_click ∅)).
Proof.
  split; [reflexivity |]. split; [reflexivity |]. split; [reflexivity |].
  pose proof (empty_question_is_rejected empty_click ∅ loans eq_refl eq_refl eq_refl)
    as (Htrace & Hquiet & _).
  split; [exact Htrace | exact Hquiet].
Defined.

(** ** The query synthesizer *)

(** The extraction shows the missing-structure notice or nothing. *)
Lemma extract_events env result shown returned :
  extract env result = Ok (shown, returned) →
  Forall (λ ev, ∀ c, ev ≠ eval_call c) shown.
Proof.
  unfold extract, no_structure. intros H.
  repeat (match type of H with
          | context [mbind _ ?m] => destruct m eqn:?; simpl in H; try discriminate
          | context [if ?b then _ else _] => destruct b eqn:?; simpl in H
          end);
    try discriminate; injection H as <- <-; by repeat constructor.
Qed.

(** The synthesizer never calls the evaluator. *)
Lemma call_gemini_api_events env prompt_text :
  Forall (λ ev, ∀ c, ev ≠ eval_call c) (call_gemini_api env prompt_text).1.
Proof.
  unfold call_gemini_api, request.
  destruct (post env) as [response | e]; simpl.
  - destruct (raise_for_status response) as [[] | e]; simpl.
    + destruct (response_json env response) as [result | e]; simpl.
      * destruct (extract env result) as [[shown returned] | e] eqn:He.
        -- constructor; [done |]. by eapply extract_events.
        -- destruct e; by repeat constructor.
      * destruct e; by repeat constructor.
    + destruct e; by repeat constructor.
  - destruct e; by repeat constructor.
Qed.

(** C9: when the oracle's expression is the empty string the evaluator is
    not called; the run shows the same could-not-generate warning, and
    nothing else, as when the artifact has no expression at all. *)
Theorem empty_expression_is_not_evaluated env df info :
  df_columns_info df = Ok info →
  text_input env ≠ "" →
  let reply := call_gemini_api env (mkPrompt info (text_input env)) in
  reply.2 = JStr "" ∨ reply.2 = JNull →
  get_answer env df = (st_spinner :: reply.1 ++ no_query, df, None) ∧
  Forall (λ ev, ∀ c, ev ≠ eval_call c) (get_answer env df).1.1 ∧
  answer env (JStr "") df = answer env JNull df.
Proof.
  intros Hinfo Hquery reply Hreply.
  assert (get_answer env df = (st_spinner :: reply.1 ++ no_query, df, None)) as Heq.
  { unfold get_answer. rewrite Hinfo, (bool_decide_eq_false_2 _ Hquery). simpl.
    fold reply. destruct reply as [called python_code]. simpl in *.
    by destruct Hreply as [-> | ->]. }
  split; [exact Heq |]. split; [| reflexivity].
  rewrite Heq. simpl. constructor; [done |].
  apply Forall_app. split; [apply call_gemini_api_events | by repeat constructor].
Qed.

Lemma empty_expression_is_not_evaluated_witness :
  df_columns_info loans = Ok "'Customer Name' (object), 'Loan Amount (INR)' (int64)" ∧
  text_input empty_artifact ≠ "" ∧
  (call_gemini_api empty_artifact
     (mkPrompt "'Customer Name' (object), 'Loan Amount (INR)' (int64)"
               (text_input empty_artifact))).2 = JStr "" ∧
  get_answer empty_artifact loans
  = ([st_spinner;
      client_post (mkPrompt "'Customer Name' (object), 'Loan Amount (INR)' (int64)"
                            "What is the total loan amount?");
      st_warning [Lit "Could not generate a valid Python query from your question. Please try rephrasing."]],
     loans, None).
Proof.
  split; [reflexivity |]. split; [discriminate |]. split; [reflexivity |].
  apply (empty_expression_is_not_evaluated empty_artifact loans
           "'Customer Name' (object), 'Loan Amount (INR)' (int64)").
  - reflexivity.
  - discriminate.
  - left. reflexivity.
Defined.

(** C2: an HTTP 500 response makes [raise_for_status] raise
    [HTTPStatusError], which is not a [RequestError]: the run makes one
    request and returns [None], but the notice it shows is the generic
    unexpected-error one, not the transport one that a [RequestError]
    gets. *)
Theorem http_500_gets_the_generic_notice env body prompt_text :
  call_gemini_api (with_post env (Ok (mkResponse 500 body))) prompt_text
  = ([client_post prompt_text;
      st_error [Lit "An unexpected error occurred during API call: ";
                FmtExc (HTTPStatusError 500)]],
     JNull) ∧
  ∀ detail,
    call_gemini_api (with_post env (Raise (RequestError detail))) prompt_text
    = ([client_post prompt_text;
        st_error [Lit "Error communicating with the Gemini API. Please check your internet connection or API key. Details: ";
                  FmtExc (RequestError detail)]],
       JNull).
Proof. split; [reflexivity | intros detail; reflexivity]. Qed.

(** ** The schema summarizer *)

Lemma labelled_absent (cs : list Column) (k : string) :
  k ∉ label <$> cs → filter (λ c', label c' = k) cs = [].
Proof.
  induction cs as [| c' cs IH]; simpl; intros Hk; [done |].
  apply not_elem_of_cons in Hk as [Hne Hk].
  rewrite filter_cons_False by congruence. by apply IH.
Qed.

Lemma labelled_unique (cs : list Column) (c : Column) :
  NoDup (label <$> cs) → c ∈ cs →
  filter (λ c', label c' = label c) cs = [c].
Proof.
  induction cs as [| c' cs IH]; simpl; intros Hnd Hc.
  - by apply elem_of_nil in Hc.
  - apply NoDup_cons in Hnd as [Hc' Hnd].
    apply elem_of_cons in Hc as [-> | Hc].
    + rewrite filter_cons_True by done. f_equal. by apply labelled_absent.
    + rewrite filter_cons_False; [by apply IH |].
      intros Heq. apply Hc'. rewrite Heq. by apply list_elem_of_fmap_2.
Qed.

Lemma column_info_unique (df : DataFrame) (c : Column) :
  NoDup (label <$> columns df) → c ∈ columns df →
  column_info df (label c) = Ok (entry c).
Proof.
  intros Hnd Hc. unfold column_info, select_column, labelled.
  by rewrite labelled_unique.
Qed.

Lemma column_infos_unique (df : DataFrame) (cs : list Column) :
  NoDup (label <$> columns df) → cs ⊆ columns df →
  column_infos df (label <$> cs) = Ok (entry <$> cs).
Proof.
  intros Hnd. induction cs as [| c cs IH]; intros Hsub; [done |].
  rewrite fmap_cons. cbn [column_infos].
  rewrite column_info_unique by (done || apply Hsub; left).
  rewrite IH; [done |]. intros d Hd. apply Hsub. by right.
Qed.



(** ** Scenarios *)

(** With a label carried by two columns the schema description raises, and
    nothing around it catches the exception. *)
Example duplicate_label_escapes :
  df_columns_info twice_labelled = Raise AttributeError ∧
  get_answer empty_artifact twice_labelled
  = ([st_spinner], twice_labelled, Some (Uncaught AttributeError)).
Proof. split; reflexivity. Qed.

(** A question of one space is not empty: it is sent to the oracle. *)
Example blank_question_is_sent :
  trace (main (env_of (Raise (RequestError "unreachable")) "" (ast.Name "df") " ") ∅) !! 6%nat
  = Some (client_post (mkPrompt "'Customer Name' (object), 'Loan Amount (INR)' (int64)" " ")).
Proof. reflexivity. Qed.

(** Two loans of Rahul Sharma: a table and the count. *)
Example two_rows_matched :
  answer (answering "df[df['Customer Name'] == 'Rahul Sharma']" (loans_of "Rahul Sharma"))
         (JStr "df[df['Customer Name'] == 'Rahul Sharma']") loans
  = ([eval_call (JStr "df[df['Customer Name'] == 'Rahul Sharma']");
      st_subheader [Lit "Here is your extracted data:"];
      st_dataframe
        {| index := [0; 2];
           columns :=
             [mkColumn "Customer Name" object_ [SStr "Rahul Sharma"; SStr "Rahul Sharma"];
              mkColumn "Loan Amount (INR)" int64 [SInt 100000; SInt 400000]] |};
      st_success [FmtNat 2; Lit " rows matched your query."]],
     loans, None).
Proof. reflexivity. Qed.

(** No loan of Nobody: the no-match notice, not an error. *)
Example nobody_matched :
  answer (answering "df[df['Customer Name'] == 'Nobody']" (loans_of "Nobody"))
         (JStr "df[df['Customer Name'] == 'Nobody']") loans
  = ([eval_call (JStr "df[df['Customer Name'] == 'Nobody']");
      st_info [Lit "No data matched your query."]],
     loans, None).
Proof. reflexivity. Qed.

(** An aggregate is shown as the answer. *)
Example total_amount :
  answer (answering "df['Loan Amount (INR)'].sum()" sum_amount)
         (JStr "df['Loan Amount (INR)'].sum()") loans
  = ([eval_call (JStr "df['Loan Amount (INR)'].sum()");
      st_subheader [Lit "Here is your answer:"];
      st_success [Lit "The result is: "; FmtVal (VScalar (SInt 750000))]],
     loans, None).
Proof. reflexivity. Qed.

(** A node outside the model is evaluated by the interpreter: a call that
    ends the process is no [Exception], so the handler of line 226 lets it
    pass and no notice is shown. *)
Example exit_passes_the_handler :
  answer (with_python (answering "exit" (ast.Other 0)) exiting) (JStr "exit") loans
  = ([eval_call (JStr "exit")], loans, Some (Interrupted SystemExit)).
Proof. reflexivity. Qed.

(** After an HTTP 500 the run ends with the could-not-generate warning and
    the session still holds the DataFrame. *)
Example session_survives_http_500 :
  let r := main (with_post empty_artifact (Ok (mkResponse 500 None))) ∅ in
  last (trace r) = Some (st_warning [Lit "Could not generate a valid Python query from your question. Please try rephrasing."]) ∧
  session_state r !! "df" = Some (Some loans) ∧ uncaught r = None.
Proof. vm_compute. repeat split. Qed.

(** ** Further properties: the evaluator's namespace *)

Lemma load_name_start py id σ w :
  load_name py the_globals id (start σ w)
  = (if bool_decide (id = "__debug__") then Returns (VScalar (SBool (debug py)))
     else if bool_decide (id = "df") then Returns VSessionDf
     else if bool_decide (id = "pd") then Returns VPandas
     else if bool_decide (id = "__builtins__") then Returns (VScalar SNone)
     else Raises TypeError,
     start σ w).
Proof.
  destruct (decide (id = "__debug__")) as [-> | Hd]; [done |].
  destruct (decide (id = "df")) as [-> | Hdf]; [done |].
  destruct (decide (id = "pd")) as [-> | Hpd]; [done |].
  destruct (decide (id = "__builtins__")) as [-> | Hb]; [done |].
  rewrite load_name_unbound by done.
  by rewrite !bool_decide_eq_false_2 by done.
Qed.

(** The names that have a value at the call site of [eval] (lines 209-210)
    are [df], [pd], [__builtins__] and [__debug__]: the session's DataFrame,
    the pandas module, [None], and the constant of the compiler.  Every
    other name raises [TypeError], whatever the interpreter; no lookup
    writes anything. *)
Theorem binding_set py id σ w :
  match load_name py the_globals id (start σ w) with
  | (Returns v, s') =>
      s' = start σ w ∧
      ((id = "df" ∧ v = VSessionDf) ∨ (id = "pd" ∧ v = VPandas) ∨
       (id = "__builtins__" ∧ v = VScalar SNone) ∨
       (id = "__debug__" ∧ v = VScalar (SBool (debug py))))
  | (Raises e, s') =>
      s' = start σ w ∧ e = TypeError ∧
      id ≠ "df" ∧ id ≠ "pd" ∧ id ≠ "__builtins__" ∧ id ≠ "__debug__"
  | (Escapes _, _) => False
  end.
Proof.
  rewrite load_name_start.
  destruct (decide (id = "__debug__")) as [-> | Hd]; [simpl; auto 10 |].
  rewrite (bool_decide_eq_false_2 _ Hd).
  destruct (decide (id = "df")) as [-> | Hdf]; [simpl; auto 10 |].
  rewrite (bool_decide_eq_false_2 _ Hdf).
  destruct (decide (id = "pd")) as [-> | Hpd]; [simpl; auto 10 |].
  rewrite (bool_decide_eq_false_2 _ Hpd).
  destruct (decide (id = "__builtins__")) as [-> | Hb]; [simpl; auto 10 |].
  by rewrite (bool_decide_eq_false_2 _ Hb).
Qed.

(** None of the four values is callable. *)
Lemma load_name_not_callable py id σ w v s' args s :
  load_name py the_globals id (start σ w) = (Returns v, s') →
  call py v args s = (Raises TypeError, s).
Proof.
  rewrite load_name_start. intros H.
  repeat (match type of H with
          | context [if ?b then _ else _] => destruct b
          end); by simplify_eq.
Qed.


(** ** Further properties: the query synthesizer *)

Lemma extract_shape env result shown returned :
  extract env result = Ok (shown, returned) →
  shown = [] ∨ (shown, returned) = no_structure.
Proof.
  unfold extract, no_structure. intros H.
  repeat (match type of H with
          | context [mbind _ ?m] => destruct m eqn:?; simpl in H; try discriminate
          | context [if ?b then _ else _] => destruct b eqn:?; simpl in H
          end);
    try discriminate; injection H as <- <-; auto.
Qed.

Lemma request_shape env shown returned :
  request env = Ok (shown, returned) →
  shown = [] ∨ (shown, returned) = no_structure.
Proof.
  unfold request. intros H.
  destruct (post env) as [response |]; simpl in H; [| discriminate].
  destruct (raise_for_status response); simpl in H; [| discriminate].
  destruct (response_json env response) as [result |]; simpl in H; [| discriminate].
  by eapply extract_shape.
Qed.

(** Whatever the transport and the oracle do, [call_gemini_api] (lines
    44-72) makes one request and then either returns a value without any
    notice, or shows exactly one error notice and returns [None]. *)
Theorem synthesizer_outcome env prompt_text :
  (call_gemini_api env prompt_text).1 = [client_post prompt_text] ∨
  ∃ body, call_gemini_api env prompt_text = ([client_post prompt_text; st_error body], JNull).
Proof.
  unfold call_gemini_api.
  destruct (request env) as [[shown returned] | e] eqn:Hr.
  - apply request_shape in Hr as [-> | [= -> ->]]; [by left | right; by eexists].
  - right. destruct e; by eexists.
Qed.

(** The structure found, the extraction comes down to parsing the text and
    reading [python_code]. *)
Lemma extract_carried env body text :
  carries body text →
  extract env body
  = (parsed_json ← loads env text; python_code ← py_get parsed_json "python_code";
     Ok ([], python_code)).
Proof.
  intros (fs & c & cs & k & p & ps & -> & Hfs & Hc & Hk & Hp).
  unfold extract. simpl. rewrite Hfs. simpl. rewrite Hc. simpl.
  assert (k ≠ []) as Hne by (by destruct k).
  rewrite (bool_decide_eq_false_2 _ Hne). simpl.
  rewrite Hk. simpl. by rewrite Hp.
Qed.

(** A 4xx or 5xx status (line 51) gets the generic notice of lines 70-72
    with the status in it, whatever the body holds; nothing is parsed. *)
Theorem error_status_gets_generic_notice env response prompt_text :
  post env = Ok response →
  400 ≤ status_code response < 600 →
  call_gemini_api env prompt_text
  = ([client_post prompt_text;
      st_error [Lit "An unexpected error occurred during API call: ";
                FmtExc (HTTPStatusError (status_code response))]],
     JNull).
Proof.
  intros Hpost Hstatus. unfold call_gemini_api, request, raise_for_status.
  rewrite Hpost. simpl.
  destruct (200 <=? status_code response)%Z eqn:Hlo, (status_code response <? 300)%Z eqn:Hhi;
    simpl; try reflexivity.
  apply Z.leb_le in Hlo. apply Z.ltb_lt in Hhi. lia.
Qed.

Lemma error_status_gets_generic_notice_witness :
  post (bare_status 404) = Ok (mkResponse 404 None) ∧
  call_gemini_api (bare_status 404) (mkPrompt "" "")
  = ([client_post (mkPrompt "" "");
      st_error [Lit "An unexpected error occurred during API call: ";
                FmtExc (HTTPStatusError 404)]],
     JNull).
Proof.
  split; [reflexivity |].
  apply (error_status_gets_generic_notice (bare_status 404) (mkResponse 404 None) (mkPrompt "" ""));
    [reflexivity | simpl; lia].
Defined.

(** A 2xx response with the expected structure whose text parses to an
    object: the function returns that object's [python_code] ([None] when
    the key is absent) and shows no notice.  Further candidates and parts
    are not looked at (lines 55-59). *)
Theorem artifact_is_extracted env response body text fields prompt_text :
  post env = Ok response →
  200 ≤ status_code response < 300 →
  json_body response = Some body →
  carries body (JStr text) →
  json_loads env text = Some (JObj fields) →
  call_gemini_api env prompt_text
  = ([client_post prompt_text], default JNull (dict_lookup fields "python_code")).
Proof.
  intros Hpost [Hlo Hhi] Hbody Hcarries Hloads.
  unfold call_gemini_api, request, raise_for_status, response_json.
  rewrite Hpost. simpl.
  apply Z.leb_le in Hlo. apply Z.ltb_lt in Hhi. rewrite Hlo, Hhi, Hbody. simpl.
  rewrite (extract_carried env body (JStr text) Hcarries). simpl. by rewrite Hloads.
Qed.

Lemma structured_carries text : carries (structured text) (JStr text).
Proof. by repeat eexists. Qed.

Lemma artifact_is_extracted_witness :
  post (answering "df" (ast.Name "df")) = Ok (envelope (artifact_text "df")) ∧
  call_gemini_api (answering "df" (ast.Name "df")) (mkPrompt "" "")
  = ([client_post (mkPrompt "" "")], JStr "df").
Proof.
  split; [reflexivity |].
  apply (artifact_is_extracted (answering "df" (ast.Name "df")) (envelope (artifact_text "df"))
           (structured (artifact_text "df")) (artifact_text "df") [("python_code", JStr "df")]
           (mkPrompt "" "")).
  - reflexivity.
  - simpl. lia.
  - reflexivity.
  - apply structured_carries.
  - reflexivity.
Defined.

(** A 2xx response whose body, or whose text, cannot be decoded (lines 52
    and 58): when the decoder raises [JSONDecodeError], the notice is the
    failed-to-parse one of lines 67-69 for both, which cannot be told apart
    by what is shown; when it raises another exception that is not a
    [RequestError] (a [RecursionError] for a text nested too deeply, a
    [UnicodeError] for a body that is not text), the notice is the generic
    one of lines 70-72. *)
Theorem unparsable_reply_gets_parse_notice env response prompt_text exc :
  post env = Ok response →
  200 ≤ status_code response < 300 →
  (json_body response = None ∧ body_error env response = exc) ∨
  (∃ body text, json_body response = Some body ∧ carries body (JStr text) ∧
                json_loads env text = None ∧ loads_error env text = exc) →
  (exc = JSONDecodeError →
   call_gemini_api env prompt_text
   = ([client_post prompt_text;
       st_error [Lit "Failed to parse JSON response from LLM. The LLM might have returned malformed JSON."]],
      JNull)) ∧
  ((∀ detail, exc ≠ RequestError detail) → exc ≠ JSONDecodeError →
   call_gemini_api env prompt_text
   = ([client_post prompt_text;
       st_error [Lit "An unexpected error occurred during API call: "; FmtExc exc]],
      JNull)).
Proof.
  intros Hpost [Hlo Hhi] Hcases.
  assert (request env = Raise exc) as Hreq.
  { unfold request, raise_for_status, response_json.
    rewrite Hpost. simpl.
    apply Z.leb_le in Hlo. apply Z.ltb_lt in Hhi. rewrite Hlo, Hhi. simpl.
    destruct Hcases as [[-> <-] | (body & text & -> & Hcarries & Hloads & <-)]; [done |]. simpl.
    rewrite (extract_carried env body (JStr text) Hcarries). simpl. by rewrite Hloads. }
  unfold call_gemini_api. rewrite Hreq. split.
  - by intros ->.
  - intros Hreq' Hjson. destruct exc; try done. by destruct (Hreq' detail).
Qed.

Lemma unparsable_reply_gets_parse_notice_witness :
  call_gemini_api (env_of (Ok (envelope "not json")) "df" (ast.Name "df") "q") (mkPrompt "" "")
  = ([client_post (mkPrompt "" "");
      st_error [Lit "Failed to parse JSON response from LLM. The LLM might have returned malformed JSON."]],
     JNull) ∧
  call_gemini_api (with_decoding_error (env_of (Ok (envelope "[[[[")) "df" (ast.Name "df") "q")
                                       RecursionError)
                  (mkPrompt "" "")
  = ([client_post (mkPrompt "" "");
      st_error [Lit "An unexpected error occurred during API call: "; FmtExc RecursionError]],
     JNull).
Proof.
  split.
  - apply (unparsable_reply_gets_parse_notice _ (envelope "not json") (mkPrompt "" "")
             JSONDecodeError).
    + reflexivity.
    + simpl. lia.
    + right. exists (structured "not json"), "not json".
      split; [reflexivity |]. split; [apply structured_carries |]. split; reflexivity.
    + reflexivity.
  - apply (unparsable_reply_gets_parse_notice _ (envelope "[[[[") (mkPrompt "" "")
             RecursionError).
    + reflexivity.
    + simpl. lia.
    + right. exists (structured "[[[["), "[[[[".
      split; [reflexivity |]. split; [apply structured_carries |]. split; reflexivity.
    + discriminate.
    + discriminate.
Defined.

(** A 2xx JSON object that fails one of the three tests of lines 55-56 (no
    or empty [candidates], no [content] in the first candidate, no [parts]
    in that content) gets the did-not-return-a-valid-structured-response
    notice of line 61, and [None] is returned. *)
Theorem missing_structure_gets_its_notice env response body prompt_text :
  post env = Ok response →
  200 ≤ status_code response < 300 →
  json_body response = Some body →
  lacks_structure body →
  call_gemini_api env prompt_text
  = ([client_post prompt_text;
      st_error [Lit "LLM did not return a valid structured response. Please try again."]],
     JNull).
Proof.
  intros Hpost [Hlo Hhi] Hbody (fs & -> & Hlacks).
  unfold call_gemini_api, request, raise_for_status, response_json.
  rewrite Hpost. simpl.
  apply Z.leb_le in Hlo. apply Z.ltb_lt in Hhi. rewrite Hlo, Hhi, Hbody. simpl.
  unfold extract. simpl.
  destruct Hlacks as [Hcand | (c & cs & Hcand & Hrest)].
  - by rewrite Hcand.
  - rewrite Hcand. simpl.
    destruct Hrest as [Hcontent | (k & Hcontent & Hparts)].
    + by rewrite Hcontent.
    + rewrite Hcontent. simpl. destruct k as [| field k]; [done |].
      simpl. simpl in Hparts. by rewrite Hparts.
Qed.

Lemma missing_structure_gets_its_notice_witness :
  lacks_structure (JObj [("candidates", JArr [])]) ∧
  call_gemini_api
    (env_of (Ok (mkResponse 200 (Some (JObj [("candidates", JArr [])])))) "df" (ast.Name "df") "q")
    (mkPrompt "" "")
  = ([client_post (mkPrompt "" "");
      st_error [Lit "LLM did not return a valid structured response. Please try again."]],
     JNull).
Proof.
  assert (lacks_structure (JObj [("candidates", JArr [])])) as Hlacks.
  { eexists. split; [reflexivity |]. left. reflexivity. }
  split; [exact Hlacks |].
  apply (missing_structure_gets_its_notice _
           (mkResponse 200 (Some (JObj [("candidates", JArr [])])))
           (JObj [("candidates", JArr [])])).
  - reflexivity.
  - simpl. lia.
  - reflexivity.
  - exact Hlacks.
Defined.

(** A 2xx JSON body that is not an object (a list, a string, a number,
    [null]) has no [get]: the [AttributeError] of line 55 falls to the
    generic notice of lines 70-72, not to the missing-structure one. *)
Theorem non_object_body_gets_generic_notice env response body prompt_text :
  post env = Ok response →
  200 ≤ status_code response < 300 →
  json_body response = Some body →
  (∀ fs, body ≠ JObj fs) →
  call_gemini_api env prompt_text
  = ([client_post prompt_text;
      st_error [Lit "An unexpected error occurred during API call: "; FmtExc AttributeError]],
     JNull).
Proof.
  intros Hpost [Hlo Hhi] Hbody Hshape.
  unfold call_gemini_api, request, raise_for_status, response_json.
  rewrite Hpost. simpl.
  apply Z.leb_le in Hlo. apply Z.ltb_lt in Hhi. rewrite Hlo, Hhi, Hbody. simpl.
  destruct body as [| | | | | |fs]; try reflexivity. by destruct (Hshape fs).
Qed.

Lemma non_object_body_gets_generic_notice_witness :
  json_body (mkResponse 200 (Some (JArr []))) = Some (JArr []) ∧
  call_gemini_api (env_of (Ok (mkResponse 200 (Some (JArr [])))) "df" (ast.Name "df") "q")
                  (mkPrompt "" "")
  = ([client_post (mkPrompt "" "");
      st_error [Lit "An unexpected error occurred during API call: "; FmtExc AttributeError]],
     JNull).
Proof.
  split; [reflexivity |].
  apply (non_object_body_gets_generic_notice _ (mkResponse 200 (Some (JArr []))) (JArr []));
    [reflexivity | simpl; lia | reflexivity | discriminate].
Defined.

(** Whenever the synthesizer shows an error notice, the run goes on to the
    could-not-generate warning of line 231: the user sees the two notices in
    that order, nothing is evaluated and the DataFrame is untouched. *)
Theorem oracle_failure_ends_in_warning env df info body :
  df_columns_info df = Ok info →
  text_input env ≠ "" →
  st_error body ∈ (call_gemini_api env (mkPrompt info (text_input env))).1 →
  get_answer env df
  = ([st_spinner; client_post (mkPrompt info (text_input env)); st_error body;
      st_warning [Lit "Could not generate a valid Python query from your question. Please try rephrasing."]],
     df, None).
Proof.
  intros Hinfo Hquery Hshown. unfold get_answer.
  rewrite Hinfo, (bool_decide_eq_false_2 _ Hquery). simpl.
  revert Hshown. unfold call_gemini_api.
  destruct (request env) as [[shown returned] | e] eqn:Hr.
  - apply request_shape in Hr as [-> | [= -> ->]]; simpl; rewrite !elem_of_cons.
    + intros [[=] | Hnil]. by apply elem_of_nil in Hnil.
    + intros [[=] | [[= <-] | Hnil]]; [done | by apply elem_of_nil in Hnil].
  - destruct e; simpl; rewrite !elem_of_cons;
      (intros [[=] | [[= <-] | Hnil]]; [done | by apply elem_of_nil in Hnil]).
Qed.

Lemma oracle_failure_ends_in_warning_witness :
  df_columns_info loans = Ok "'Customer Name' (object), 'Loan Amount (INR)' (int64)" ∧
  get_answer (bare_status 500) loans
  = ([st_spinner;
      client_post (mkPrompt "'Customer Name' (object), 'Loan Amount (INR)' (int64)"
                            "What is the total loan amount?");
      st_error [Lit "An unexpected error occurred during API call: "; FmtExc (HTTPStatusError 500)];
      st_warning [Lit "Could not generate a valid Python query from your question. Please try rephrasing."]],
     loans, None).
Proof.
  split; [reflexivity |].
  apply (oracle_failure_ends_in_warning (bare_status 500) loans
           "'Customer Name' (object), 'Loan Amount (INR)' (int64)").
  - reflexivity.
  - discriminate.
  - simpl. rewrite !elem_of_cons. right. left. reflexivity.
Defined.

(** ** Further properties: the schema description and duplicate labels *)

Lemma carriers_cons k c cs :
  carriers k (c :: cs) = ((if decide (label c = k) then 1 else 0) + carriers k cs)%nat.
Proof. unfold carriers. rewrite filter_cons. by destruct (decide (label c = k)). Qed.

Lemma carriers_pos k cs : k ∈ label <$> cs → (1 ≤ carriers k cs)%nat.
Proof.
  induction cs as [| c cs IH]; simpl; intros Hk; [by apply elem_of_nil in Hk |].
  rewrite carriers_cons. apply elem_of_cons in Hk as [-> | Hk].
  - rewrite decide_True by done. lia.
  - specialize (IH Hk). lia.
Qed.

Lemma duplicate_carriers cs :
  ¬ NoDup (label <$> cs) → ∃ k, k ∈ label <$> cs ∧ (2 ≤ carriers k cs)%nat.
Proof.
  induction cs as [| c cs IH]; simpl; intros Hdup; [destruct Hdup; constructor |].
  destruct (decide (label c ∈ label <$> cs)) as [Hin | Hout].
  - exists (label c). split; [left |].
    rewrite carriers_cons, decide_True by done.
    pose proof (carriers_pos _ _ Hin). lia.
  - destruct IH as (k & Hk & Hcount).
    { intros Hnd. apply Hdup. by constructor. }
    exists k. split; [by right |]. rewrite carriers_cons. lia.
Qed.

Lemma column_info_cases df k :
  k ∈ label <$> columns df →
  match column_info df k with
  | Ok _ => carriers k (columns df) = 1%nat
  | Raise e => e = AttributeError ∧ (2 ≤ carriers k (columns df))%nat
  end.
Proof.
  intros Hk. apply carriers_pos in Hk.
  unfold column_info, select_column, labelled, carriers in *.
  destruct (filter _ (columns df)) as [| c [| c' cs]]; simpl in *; [lia | done |].
  split; [done | lia].
Qed.

Lemma column_infos_cases df ks :
  Forall (λ k, k ∈ label <$> columns df) ks →
  match column_infos df ks with
  | Ok _ => Forall (λ k, carriers k (columns df) = 1%nat) ks
  | Raise e => e = AttributeError
  end.
Proof.
  induction 1 as [| k ks Hk _ IH]; [by constructor |].
  cbn [column_infos]. pose proof (column_info_cases df k Hk) as Hcase.
  destruct (column_info df k) as [s | e]; simpl; [| by destruct Hcase].
  destruct (column_infos df ks) as [rest | e]; simpl; [by constructor | done].
Qed.

Lemma df_columns_info_shape df :
  match df_columns_info df with
  | Ok _ => NoDup (label <$> columns df)
  | Raise e => ¬ NoDup (label <$> columns df) ∧ e = AttributeError
  end.
Proof.
  destruct (decide (NoDup (label <$> columns df))) as [Hnd | Hdup].
  - unfold df_columns_info. by rewrite column_infos_unique.
  - unfold df_columns_info.
    pose proof (column_infos_cases df (label <$> columns df)) as Hcase.
    destruct (column_infos df (label <$> columns df)) as [entries | e]; simpl.
    + destruct (duplicate_carriers _ Hdup) as (k & Hk & Hcount).
      assert (Forall (λ k, carriers k (columns df) = 1%nat) (label <$> columns df)) as Hone.
      { apply Hcase. by apply Forall_forall. }
      rewrite Forall_forall in Hone. specialize (Hone k Hk). lia.
    + split; [done |]. apply Hcase. by apply Forall_forall.
Qed.

(** The schema description of lines 166-167 raises exactly when two columns
    of the DataFrame carry the same label, and then it is the
    [AttributeError] of [.dtype] on a DataFrame; otherwise it is the entries
    of the columns joined by [", "].  (A column labelled [dtype] is left
    out: on a DataFrame pandas resolves [.dtype] to such a column.) *)
Theorem schema_raises_iff_duplicate_label df :
  "dtype" ∉ label <$> columns df →
  match df_columns_info df with
  | Ok info => NoDup (label <$> columns df) ∧ info = join ", " (entry <$> columns df)
  | Raise e => ¬ NoDup (label <$> columns df) ∧ e = AttributeError
  end.
Proof.
  intros _. pose proof (df_columns_info_shape df) as Hshape.
  destruct (df_columns_info df) as [info | e] eqn:Hinfo; [| done].
  split; [done |]. unfold df_columns_info in Hinfo.
  rewrite column_infos_unique in Hinfo by done. by injection Hinfo as <-.
Qed.

Lemma twice_labelled_no_dtype : "dtype" ∉ label <$> columns twice_labelled.
Proof. simpl. rewrite !not_elem_of_cons. repeat split; try discriminate. apply not_elem_of_nil. Qed.

Lemma schema_raises_iff_duplicate_label_witness :
  ("dtype" ∉ label <$> columns twice_labelled) ∧
  ¬ NoDup (label <$> columns twice_labelled) ∧
  df_columns_info twice_labelled = Raise AttributeError.
Proof.
  split; [exact twice_labelled_no_dtype |].
  pose proof (schema_raises_iff_duplicate_label twice_labelled twice_labelled_no_dtype) as H.
  change (df_columns_info twice_labelled) with (@Raise string AttributeError) in H.
  split; [exact (proj1 H) | reflexivity].
Defined.

(** ** Further properties: the run as a whole *)

Lemma tally_app kind t1 t2 : tally kind (t1 ++ t2) = (tally kind t1 + tally kind t2)%nat.
Proof. induction t1 as [| ev t1 IH]; simpl; [done |]. rewrite IH. lia. Qed.

Lemma load_tally env ss : tally is_post (load env ss).1 = 0%nat ∧ tally is_eval (load env ss).1 = 0%nat.
Proof.
  unfold load. destruct (read_excel env) as [df | []]; try by split.
  by destruct (show_dataframe env (head df)) as [[] | []].
Qed.

Lemma call_gemini_api_tally env prompt_text :
  tally is_post (call_gemini_api env prompt_text).1 = 1%nat ∧
  tally is_eval (call_gemini_api env prompt_text).1 = 0%nat.
Proof.
  unfold call_gemini_api.
  destruct (request env) as [[shown returned] | e] eqn:Hr.
  - by apply request_shape in Hr as [-> | [= -> ->]].
  - by destruct e.
Qed.

(** What the rendering shows: a subheader, a table, a count, a notice. *)
Lemma render_shows env v σ ev :
  ev ∈ (render env v σ).1 →
  is_post ev = false ∧ is_eval ev = false ∧ ∀ body, ev ≠ st_error body.
Proof.
  unfold render.
  destruct (as_frame v σ) as [f |];
    [destruct (empty f); [| destruct (show_dataframe env f)]
    | destruct (is_None v); [| destruct (format_value (python env) v)]];
    cbn [fst]; unfold render_table, render_no_match, render_answer, render_nothing;
    intros H; repeat (apply elem_of_cons in H as [-> | H]; [done |]);
    by apply elem_of_nil in H.
Qed.

Lemma tally_none kind t : (∀ ev, ev ∈ t → kind ev = false) → tally kind t = 0%nat.
Proof.
  induction t as [| ev t IH]; intros H; simpl; [done |].
  rewrite (H ev) by (by left). rewrite IH; [done |]. intros ev' Hev'. apply H. by right.
Qed.

Lemma render_tally env v σ :
  tally is_post (render env v σ).1 = 0%nat ∧ tally is_eval (render env v σ).1 = 0%nat.
Proof.
  split; apply tally_none; intros ev Hev; by destruct (render_shows env v σ ev Hev) as (? & ? & _).
Qed.

(** The [try] of lines 207-229 calls [eval] first, and once. *)
Lemma evaluate_trace env python_code s :
  ∃ rest, (evaluate env python_code s).1.1 = eval_call python_code :: rest ∧
          tally is_post rest = 0%nat ∧ tally is_eval rest = 0%nat.
Proof.
  unfold evaluate.
  destruct (py_eval _ _ _ _) as [[v | e | i] s']; [| by eexists | by eexists].
  pose proof (render_tally env v (frame s')) as [Hp He].
  destruct (render env v (frame s')) as [shown [[] | e | i]]; simpl in *; eexists;
    (split; [reflexivity |]); rewrite ?tally_app, ?Hp, ?He; by split.
Qed.

Lemma answer_tally env python_code σ :
  tally is_post (answer env python_code σ).1.1 = 0%nat ∧
  (tally is_eval (answer env python_code σ).1.1 ≤ 1)%nat.
Proof.
  unfold answer.
  destruct (truthy python_code); [| split; simpl; lia].
  destruct (evaluate_trace env python_code (start σ (ambient_state env))) as (rest & Hrest & Hp & He).
  destruct (evaluate _ _ _) as [[shown s'] esc]. simpl in *. subst shown. simpl.
  rewrite Hp, He. split; lia.
Qed.

Lemma get_answer_tally env df :
  (tally is_post (get_answer env df).1.1 ≤ 1)%nat ∧
  (tally is_eval (get_answer env df).1.1 ≤ tally is_post (get_answer env df).1.1)%nat.
Proof.
  unfold get_answer.
  destruct (negb _); [| split; simpl; lia].
  destruct (df_columns_info df) as [info | e]; [| split; simpl; lia].
  pose proof (call_gemini_api_tally env (mkPrompt info (text_input env))) as [Hpost Heval].
  destruct (call_gemini_api _ _) as [called python_code].
  pose proof (answer_tally env python_code df) as [Hpost' Heval'].
  destruct (answer _ _ _) as [[shown df'] esc]. simpl in *.
  rewrite !tally_app, Hpost, Heval, Hpost'. split; lia.
Qed.

(** A run makes at most one request to the oracle and at most one call of
    [eval], and it evaluates only after it has made the request: there is no
    retry and no second evaluation (lines 161-231). *)
Theorem one_request_one_evaluation env ss :
  (tally is_post (trace (main env ss)) ≤ 1)%nat ∧
  (tally is_eval (trace (main env ss)) ≤ tally is_post (trace (main env ss)))%nat.
Proof.
  unfold main.
  pose proof (load_tally env (init_session ss)) as [Hpost Heval].
  destruct (load env (init_session ss)) as [loading ss1]. simpl in *.
  destruct (ss1 !! "df") as [[df |] |]; simpl; try (rewrite Hpost, Heval; lia).
  unfold query_interface.
  destruct (button env).
  - pose proof (get_answer_tally env df) as [Hpost' Heval'].
    destruct (get_answer env df) as [[shown df'] exc]. simpl in *.
    rewrite !tally_app, Hpost, Heval. simpl. lia.
  - simpl. rewrite !tally_app, Hpost, Heval. simpl. lia.
Qed.

Lemma load_shows env ss ev :
  ev ∈ (load env ss).1 → ev ≠ st_spinner ∧ ∀ c, ev ≠ eval_call c.
Proof.
  unfold load. destruct (read_excel env) as [df | e].
  - destruct (show_dataframe env (head df)) as [[] | []]; simpl;
      rewrite ?elem_of_cons, elem_of_nil; intros H; decompose [or] H; subst; done.
  - destruct e; simpl; rewrite ?elem_of_cons, elem_of_nil; intros H; decompose [or] H; subst; done.
Qed.

Lemma load_session env ss :
  (load env ss).2 !! "df" = Some (match read_excel env with Ok df => Some df | Raise _ => None end).
Proof.
  destruct (read_excel env) as [df | e] eqn:Hload.
  - rewrite (load_ok env ss df Hload). simpl. by rewrite lookup_insert_eq.
  - rewrite (load_raise env ss e Hload). simpl. by rewrite lookup_insert_eq.
Qed.

(** The pipeline starts (the spinner of line 163 is shown) exactly when the
    sheet was loaded, the button is pressed and the question is not the empty
    string. *)
Theorem pipeline_gate env ss :
  st_spinner ∈ trace (main env ss) ↔
  (∃ df, read_excel env = Ok df) ∧ button env = true ∧ text_input env ≠ "".
Proof.
  unfold main.
  pose proof (load_shows env (init_session ss)) as Hload.
  pose proof (load_session env (init_session ss)) as Hss.
  destruct (load env (init_session ss)) as [loading ss1]. simpl in *.
  rewrite Hss. clear Hss.
  destruct (read_excel env) as [df | e].
  - unfold query_interface, get_answer.
    destruct (button env).
    + destruct (decide (text_input env = "")) as [Hq | Hq].
      * rewrite (bool_decide_eq_true_2 _ Hq). simpl. split.
        -- rewrite elem_of_app, !elem_of_cons, elem_of_nil.
           intros [Hin | H]; [by destruct (Hload _ Hin) | by decompose [or] H].
        -- by intros (_ & _ & Hne).
      * rewrite (bool_decide_eq_false_2 _ Hq). simpl. split.
        -- intros _. split; [by eexists | done].
        -- intros _. destruct (df_columns_info df) as [info | exc].
           ++ destruct (call_gemini_api _ _) as [called python_code].
              destruct (answer _ _ _) as [[shown df'] esc]. simpl.
              rewrite elem_of_app, !elem_of_cons. auto.
           ++ simpl. rewrite elem_of_app, !elem_of_cons. auto.
    + simpl. split.
      * rewrite elem_of_app, !elem_of_cons, elem_of_nil.
        intros [Hin | H]; [by destruct (Hload _ Hin) | by decompose [or] H].
      * by intros (_ & Hb & _).
  - simpl. split.
    + intros Hin. by destruct (Hload _ Hin).
    + by intros ((df & Hdf) & _).
Qed.


(** When a run makes no call of [eval], the session ends up holding exactly
    the DataFrame that was loaded. *)
Theorem session_keeps_loaded_frame env ss df :
  read_excel env = Ok df →
  (∀ c, eval_call c ∉ trace (main env ss)) →
  session_state (main env ss) !! "df" = Some (Some df).
Proof.
  intros Hload. unfold main.
  pose proof (load_session env (init_session ss)) as Hss.
  destruct (load env (init_session ss)) as [loading ss1]. simpl in *.
  rewrite Hss, Hload. clear Hss.
  unfold query_interface, get_answer.
  destruct (button env); [| simpl; intros _; by rewrite lookup_insert_eq].
  destruct (negb _); [| simpl; intros _; by rewrite lookup_insert_eq].
  destruct (df_columns_info df) as [info | exc];
    [| simpl; intros _; by rewrite lookup_insert_eq].
  destruct (call_gemini_api _ _) as [called python_code].
  unfold answer.
  destruct (truthy python_code); [| simpl; intros _; by rewrite lookup_insert_eq].
  destruct (evaluate_trace env python_code (start df (ambient_state env))) as (rest & Hrest & _).
  destruct (evaluate _ _ _) as [[shown s'] esc]. simpl in *. subst shown. intros Hquiet.
  destruct (Hquiet python_code). rewrite elem_of_app, !elem_of_cons, elem_of_app, elem_of_cons.
  auto 10.
Qed.

Lemma session_keeps_loaded_frame_witness :
  read_excel empty_artifact = Ok loans ∧
  (∀ c, eval_call c ∉ trace (main empty_artifact ∅)) ∧
  session_state (main empty_artifact ∅) !! "df" = Some (Some loans).
Proof.
  assert (∀ c, eval_call c ∉ trace (main empty_artifact ∅)) as Hquiet.
  { intros c. cbv [not]. change (trace (main empty_artifact ∅)) with
      ([st_success [Lit "Excel sheet '"; FmtStr EXCEL_FILE_PATH; Lit "' loaded successfully!"];
        st_write [Lit "Here's a preview of your data:"];
        st_dataframe loans; st_text_input; st_button; st_spinner;
        client_post (mkPrompt "'Customer Name' (object), 'Loan Amount (INR)' (int64)"
                              "What is the total loan amount?");
        st_warning [Lit "Could not generate a valid Python query from your question. Please try rephrasing."]]).
    rewrite !elem_of_cons, elem_of_nil. intros H. decompose [or] H; (discriminate || done). }
  split; [reflexivity |]. split; [exact Hquiet |].
  exact (session_keeps_loaded_frame empty_artifact ∅ loans eq_refl Hquiet).
Defined.

(** The preview of line 143 shows the first five rows of the sheet (all of
    them when there are fewer), with every column under its label and dtype,
    and is itself a valid DataFrame. *)
Theorem preview_shows_first_five_rows env ss df :
  read_excel env = Ok df →
  valid_frame df →
  st_dataframe (head df) ∈ trace (main env ss) ∧
  len (head df) = min 5 (len df) ∧
  (λ c, (label c, col_dtype c)) <$> columns (head df)
    = (λ c, (label c, col_dtype c)) <$> columns df ∧
  valid_frame (head df).
Proof.
  intros Hload (Hrows & Hlabels & Hcells).
  assert (label <$> columns (head df) = label <$> columns df) as Hsame.
  { unfold head. simpl. rewrite <- list_fmap_compose. by apply list_fmap_ext. }
  split; [| split; [| split]].
  - unfold main. rewrite (load_ok env _ df Hload), lookup_insert_eq.
    destruct (query_interface env df) as [[shown df'] exc]. simpl.
    rewrite !elem_of_cons. auto.
  - unfold len, head. cbn [index]. apply length_take.
  - unfold head. simpl. rewrite <- list_fmap_compose. by apply list_fmap_ext.
  - split; [| split].
    + unfold head. simpl. eapply sublist_NoDup; [exact Hrows | apply sublist_take].
    + by rewrite Hsame.
    + unfold head. simpl. apply Forall_fmap. eapply Forall_impl; [exact Hcells |].
      intros c Hc. simpl. rewrite !length_take. by rewrite Hc.
Qed.

Lemma loans_valid : valid_frame loans.
Proof.
  unfold valid_frame, loans. simpl. repeat split.
  - repeat (apply NoDup_cons; split; [rewrite ?elem_of_cons, ?elem_of_nil; intuition discriminate |]).
    apply NoDup_nil_2.
  - repeat (apply NoDup_cons; split; [rewrite ?elem_of_cons, ?elem_of_nil; intuition discriminate |]).
    apply NoDup_nil_2.
  - repeat constructor.
Qed.

Lemma preview_shows_first_five_rows_witness :
  read_excel empty_click = Ok loans ∧ valid_frame loans ∧
  st_dataframe (head loans) ∈ trace (main empty_click ∅) ∧
  len (head loans) = min 5 (len loans).
Proof.
  split; [reflexivity |]. split; [exact loans_valid |].
  pose proof (preview_shows_first_five_rows empty_click ∅ loans eq_refl loans_valid)
    as (Hshown & Hlen & _).
  split; [exact Hshown | exact Hlen].
Defined.

(** ** Further properties: evaluation and rendering together *)

(** An artifact that is truthy but that [eval] cannot compile is handed to
    [eval] all the same: one that is not a string raises [TypeError], a
    string raises what the compiler reports ([SyntaxError] for a text that
    is no expression).  The exception is caught, the execution-error notice
    is shown with the artifact echoed, and the DataFrame is untouched (lines
    206-229). *)
Theorem unusable_artifact_is_execution_error env python_code σ :
  truthy python_code = true →
  (∀ s, python_code = JStr s → compile env s = None) →
  answer env python_code σ
  = ([eval_call python_code;
      st_error [Lit "An error occurred while executing the generated code. This might be due to a complex query or an issue with the data. Please try rephrasing your question. Error: ";
                FmtExc (match python_code with
                        | JStr s => compile_error env s
                        | _ => TypeError
                        end)];
      st_code [Lit "Generated code (for debugging): "; FmtJson python_code]],
     σ, None).
Proof.
  intros Htruthy Hcompile. unfold answer, evaluate, py_eval. rewrite Htruthy.
  destruct python_code as [| | | | s | |]; try reflexivity.
  by rewrite (Hcompile s eq_refl).
Qed.

Lemma unusable_artifact_is_execution_error_witness :
  answer empty_artifact (JInt 5) loans
  = ([eval_call (JInt 5);
      st_error [Lit "An error occurred while executing the generated code. This might be due to a complex query or an issue with the data. Please try rephrasing your question. Error: ";
                FmtExc TypeError];
      st_code [Lit "Generated code (for debugging): "; FmtJson (JInt 5)]],
     loans, None) ∧
  answer empty_artifact (JStr "df[") loans
  = ([eval_call (JStr "df[");
      st_error [Lit "An error occurred while executing the generated code. This might be due to a complex query or an issue with the data. Please try rephrasing your question. Error: ";
                FmtExc SyntaxError];
      st_code [Lit "Generated code (for debugging): "; FmtJson (JStr "df[")]],
     loans, None).
Proof.
  split.
  - apply (unusable_artifact_is_execution_error empty_artifact (JInt 5) loans);
      [reflexivity | discriminate].
  - apply (unusable_artifact_is_execution_error empty_artifact (JStr "df[") loans);
      [reflexivity | by intros s [= <-]].
Defined.

Lemma cells_eq_length v cs bs : cells_eq v cs = Some bs → length bs = length cs.
Proof.
  revert bs. induction cs as [| c cs IH]; simpl; intros bs; [by intros [= <-] |].
  destruct (cell_eq v c) as [b |]; [| done].
  destruct (cells_eq v cs) as [bs' |]; [| done].
  intros [= <-]. simpl. by rewrite (IH bs').
Qed.

Lemma keep_length {A} (mask : list bool) (l : list A) :
  length mask = length l →
  length (keep mask l) = length (filter (λ b, b = true) mask).
Proof.
  revert l. induction mask as [| b mask IH]; intros [| x l]; simpl; try done.
  intros [= Hlen]. destruct b.
  - rewrite filter_cons_True by done. simpl. by rewrite IH.
  - rewrite filter_cons_False by done. by apply IH.
Qed.

Lemma cell_true_SBool (bs : list bool) : cell_true <$> (SBool <$> bs) = bs.
Proof. induction bs as [| b bs IH]; [done |]. csimpl. by rewrite IH. Qed.

Lemma bind_returns {A B} (m : M A) (k : A → M B) s a s' :
  m s = (Returns a, s') → bind m k s = k a s'.
Proof. intros H. unfold bind. by rewrite H. Qed.

Lemma load_name_df py σ w :
  load_name py the_globals "df" (start σ w) = (Returns VSessionDf, start σ w).
Proof. reflexivity. Qed.

(** [df[key]] on the session's DataFrame, for a key of the model. *)
Lemma getitem_df py key r σ w :
  frame_getitem σ key = Some r →
  getitem py VSessionDf key (start σ w)
  = (match r with Ok v => Returns v | Raise e => Raises e end, start σ w).
Proof. intros Hr. unfold getitem, bind, get_frame. simpl. rewrite Hr. by destruct r. Qed.

Lemma filter_rows_labels σ bs : label <$> columns (filter_rows σ bs) = label <$> columns σ.
Proof. unfold filter_rows. simpl. rewrite <- list_fmap_compose. by apply list_fmap_ext. Qed.

(** [df[k]] and [df.pop(k)] for a label [k], whatever the interpreter. *)
Lemma eval_column py k σ w :
  eval_expr py the_globals (column k) (start σ w)
  = (match select_column σ k with
     | Ok sel => Returns (of_selection sel)
     | Raise e => Raises e
     end, start σ w).
Proof.
  unfold column. cbn [eval_expr].
  rewrite (bind_returns _ _ _ _ _ (load_name_df py σ w)).
  rewrite (bind_returns _ _ _ (VScalar (SStr k)) (start σ w) eq_refl).
  rewrite (getitem_df py (VScalar (SStr k))
             (match select_column σ k with
              | Ok sel => Ok (of_selection sel)
              | Raise e => Raise e
              end) σ w eq_refl).
  by destruct (select_column σ k).
Qed.

Lemma eval_pop_column py k σ w :
  eval_expr py the_globals (pop_column k) (start σ w)
  = match select_column σ k with
    | Ok sel => (Returns (of_selection sel), start (drop_column k σ) w)
    | Raise e => (Raises e, start σ w)
    end.
Proof.
  unfold pop_column.
  assert (eval_expr py the_globals (ast.Attribute (ast.Name "df") "pop") (start σ w)
          = (Returns (VBoundMethod VSessionDf "pop"), start σ w)) as Hattr.
  { cbn [eval_expr]. by rewrite (bind_returns _ _ _ _ _ (load_name_df py σ w)). }
  cbn [eval_expr eval_list]. cbn [eval_expr] in Hattr.
  rewrite (bind_returns _ _ _ _ _ Hattr).
  rewrite (bind_returns _ _ _ [VScalar (SStr k)] (start σ w) eq_refl).
  unfold call. simpl. unfold pop, bind, get_frame, put_frame, lift, ret. simpl.
  by destruct (select_column σ k).
Qed.

(** [df[df[c] == v]] on a valid DataFrame evaluates to the rows whose cell
    of column [c] equals [v], and writes nothing, whatever the
    interpreter: every step is one of the model. *)
Lemma eval_rows_where py col v bs σ w :
  NoDup (label <$> columns σ) → col ∈ columns σ →
  cells_eq v (cells col) = Some bs →
  eval_expr py the_globals (rows_where (label col) v) (start σ w)
  = (Returns (VFrame (filter_rows σ bs)), start σ w).
Proof.
  intros Hnd Hcol Hbs.
  assert (∀ s, compare py ast.Eq (VSeries (series_of σ col)) (VScalar v) s
               = (Returns (VSeries (mkSeries (index σ) bool_ (SBool <$> bs))), s)) as Hmask.
  { intros s. unfold compare. simpl. by rewrite Hbs. }
  assert (frame_getitem σ (VSeries (mkSeries (index σ) bool_ (SBool <$> bs)))
          = Some (Ok (VFrame (filter_rows σ bs)))) as Hrows.
  { unfold frame_getitem, mask_of. simpl. rewrite decide_True by done.
    by rewrite cell_true_SBool. }
  assert (eval_expr py the_globals (column (label col)) (start σ w)
          = (Returns (VSeries (series_of σ col)), start σ w)) as Hsub.
  { rewrite eval_column. unfold select_column, labelled. by rewrite labelled_unique. }
  assert (eval_expr py the_globals
            (ast.Compare (column (label col)) ast.Eq (ast.Constant v)) (start σ w)
          = (Returns (VSeries (mkSeries (index σ) bool_ (SBool <$> bs))), start σ w)) as Hcmp.
  { cbn [eval_expr]. rewrite (bind_returns _ _ _ _ _ Hsub).
    rewrite (bind_returns _ _ _ (VScalar v) (start σ w) eq_refl).
    apply Hmask. }
  change (rows_where (label col) v)
    with (ast.Subscript (ast.Name "df")
            (ast.Compare (column (label col)) ast.Eq (ast.Constant v))).
  cbn [eval_expr]. cbn [eval_expr] in Hcmp.
  rewrite (bind_returns _ _ _ _ _ (load_name_df py σ w)).
  rewrite (bind_returns _ _ _ _ _ Hcmp).
  by rewrite (getitem_df py _ _ σ w Hrows).
Qed.



(** A reference to a column the DataFrame does not have, by [df[k]] or by
    [df.pop(k)], raises [KeyError]: the run shows the execution-error notice
    with the expression echoed and the DataFrame is untouched (lines
    207-229). *)
Theorem unknown_column_is_execution_error env s e k σ :
  s ≠ "" →
  compile env s = Some e →
  e = column k ∨ e = pop_column k →
  k ∉ label <$> columns σ →
  answer env (JStr s) σ = (eval_call (JStr s) :: render_error KeyError (JStr s), σ, None).
Proof.
  intros Hs Hcompile He Hk.
  assert (select_column σ k = Raise KeyError) as Hselect.
  { unfold select_column, labelled. by rewrite labelled_absent. }
  unfold answer, evaluate, py_eval. cbn [truthy].
  rewrite (bool_decide_eq_false_2 _ Hs). cbn [negb]. rewrite Hcompile.
  destruct He as [-> | ->].
  - by rewrite eval_column, Hselect.
  - by rewrite eval_pop_column, Hselect.
Qed.

Lemma unknown_column_is_execution_error_witness :
  ("Branch" ∉ (label <$> columns loans)) ∧
  answer (answering "df['Branch']" (column "Branch")) (JStr "df['Branch']") loans
  = ([eval_call (JStr "df['Branch']");
      st_error [Lit "An error occurred while executing the generated code. This might be due to a complex query or an issue with the data. Please try rephrasing your question. Error: ";
                FmtExc KeyError];
      st_code [Lit "Generated code (for debugging): "; FmtJson (JStr "df['Branch']")]],
     loans, None).
Proof.
  assert ("Branch" ∉ (label <$> columns loans)) as Hk.
  { simpl. rewrite !not_elem_of_cons. repeat split; try discriminate. apply not_elem_of_nil. }
  split; [exact Hk |].
  apply (unknown_column_is_execution_error (answering "df['Branch']" (column "Branch"))
           "df['Branch']" (column "Branch") "Branch" loans).
  - discriminate.
  - reflexivity.
  - left. reflexivity.
  - exact Hk.
Defined.

Lemma drop_column_labels k cs :
  NoDup (label <$> cs) → NoDup (label <$> filter (λ c, label c ≠ k) cs).
Proof.
  induction cs as [| c cs IH]; simpl; intros Hnd; [constructor |].
  apply NoDup_cons in Hnd as [Hc Hnd]. rewrite filter_cons.
  destruct (decide (label c ≠ k)); [| by apply IH].
  simpl. apply NoDup_cons. split; [| by apply IH].
  intros Hin. apply Hc. apply list_elem_of_fmap in Hin as (c' & -> & Hc').
  apply list_elem_of_filter in Hc' as [_ Hc']. by apply list_elem_of_fmap_2.
Qed.

(** [df.pop(c)] on a valid DataFrame with column [c] is shown as the answer
    (the column that was popped) and leaves the session with a DataFrame
    that is still valid, has the same rows, and has lost exactly the column
    [c] (lines 207-221). *)
Theorem pop_removes_the_column env s col σ :
  s ≠ "" →
  compile env s = Some (pop_column (label col)) →
  valid_frame σ → col ∈ columns σ →
  answer env (JStr s) σ
  = (eval_call (JStr s) :: render_answer (VSeries (series_of σ col)),
     drop_column (label col) σ, None) ∧
  valid_frame (drop_column (label col) σ) ∧
  index (drop_column (label col) σ) = index σ ∧
  ∀ c, c ∈ columns (drop_column (label col) σ) ↔ c ∈ columns σ ∧ c ≠ col.
Proof.
  intros Hs Hcompile (Hrows & Hlabels & Hcells) Hcol.
  assert (select_column σ (label col) = Ok (SelSeries (series_of σ col))) as Hselect.
  { unfold select_column, labelled. by rewrite labelled_unique. }
  split; [| split; [| split]].
  - unfold answer, evaluate, py_eval. cbn [truthy].
    rewrite (bool_decide_eq_false_2 _ Hs). cbn [negb]. rewrite Hcompile.
    by rewrite eval_pop_column, Hselect.
  - split; [done |]. split; [by apply drop_column_labels |].
    unfold drop_column. simpl. rewrite Forall_forall in Hcells. apply Forall_forall.
    intros c Hc. apply list_elem_of_filter in Hc as [_ Hc]. by apply Hcells.
  - reflexivity.
  - intros c. unfold drop_column. simpl. rewrite list_elem_of_filter. split.
    + intros [Hne Hc]. split; [done |]. by intros ->.
    + intros [Hc Hne]. split; [| done]. intros Heq. apply Hne.
      assert (filter (λ c', label c' = label col) (columns σ) = [col]) as Hone
        by (by apply labelled_unique).
      assert (c ∈ filter (λ c', label c' = label col) (columns σ)) as Hin
        by (by apply list_elem_of_filter).
      rewrite Hone in Hin. by apply list_elem_of_singleton in Hin.
Qed.

Lemma pop_removes_the_column_witness :
  valid_frame loans ∧
  answer (answering "df.pop('Customer Name')" pop_customer) (JStr "df.pop('Customer Name')") loans
  = ([eval_call (JStr "df.pop('Customer Name')");
      st_subheader [Lit "Here is your answer:"];
      st_success [Lit "The result is: ";
                  FmtVal (VSeries (mkSeries [0; 1; 2] object_
                                     [SStr "Rahul Sharma"; SStr "Priya Singh"; SStr "Rahul Sharma"]))]],
     {| index := [0; 1; 2];
        columns := [mkColumn "Loan Amount (INR)" int64 [SInt 100000; SInt 250000; SInt 400000]] |},
     None).
Proof.
  split; [exact loans_valid |].
  refine (proj1 (pop_removes_the_column (answering "df.pop('Customer Name')" pop_customer)
           "df.pop('Customer Name')"
           (mkColumn "Customer Name" object_
                     [SStr "Rahul Sharma"; SStr "Priya Singh"; SStr "Rahul Sharma"]) loans
           _ _ _ _)).
  - discriminate.
  - reflexivity.
  - exact loans_valid.
  - unfold loans. cbn [columns]. rewrite elem_of_cons. left. reflexivity.
Defined.

(** A run writes the key [df] of the session state and no other: [df] is
    always set afterwards, every other key keeps what it held (lines
    133-149). *)
Theorem run_writes_only_df env ss :
  is_Some (session_state (main env ss) !! "df") ∧
  ∀ k, k ≠ "df" → session_state (main env ss) !! k = ss !! k.
Proof.
  assert (∀ k, k ≠ "df" → (load env (init_session ss)).2 !! k = ss !! k) as Hother.
  { intros k Hk.
    assert (init_session ss !! k = ss !! k) as Hinit.
    { unfold init_session. destruct (ss !! "df"); [done | by rewrite lookup_insert_ne]. }
    unfold load.
    destruct (read_excel env) as [df | e]; [destruct (show_dataframe env (head df)) |];
      simpl; by rewrite !lookup_insert_ne. }
  unfold main.
  pose proof (load_session env (init_session ss)) as Hss.
  destruct (load env (init_session ss)) as [loading ss1]. simpl in *.
  rewrite Hss. destruct (read_excel env) as [df | e].
  - destruct (query_interface env df) as [[shown df'] exc]. simpl. split.
    + rewrite lookup_insert_eq. by eexists.
    + intros k Hk. rewrite lookup_insert_ne by done. by apply Hother.
  - simpl. split; [rewrite Hss; by eexists | exact Hother].
Qed.

